(** * DashCash: the pinless ATM simulator (simulator.py)

    A shallow embedding of the enrollment, login and balance handlers of
    [simulator.py], and the properties of the specification checked on it.

    - The SQLite table [users] is a finite map from [account_no] (its
      PRIMARY KEY) to the remaining columns.
    - The column [balance REAL] and the amounts of [st.number_input] are
      Python floats, that is IEEE 754 binary64 numbers: they are Rocq's
      primitive floats, with their [+], [-] and [<].  SQLite binds a NaN
      as NULL, which [balance REAL NOT NULL] refuses.
    - The directories [enrolled_faces] and [temp_clean_db] are finite maps
      from file name to file content.  An account number is the stem of a
      file name of the enrollment directory when it holds no path separator
      ([has_sep]); with one, its image is another file ("./1001" is the
      image of "1001", "../x" lies outside the directory), which the maps do
      not follow: what is stated of the files of an enrollment is stated
      for account numbers without separator.
    - [st.session_state] is a record, one for every browser session; the
      table and the directories are shared by all sessions ([server]).
    - The libraries the script calls (PIL, DeepFace) are parameters of the
      development. *)

From Stdlib Require Import Floats ZArith Lia Ascii String.
From stdpp Require Import gmap strings list.

Local Open Scope string_scope.

(* Decimal float literals denote the nearest binary64 value, as in Python. *)
Set Warnings "-inexact-float".

(** ** Python values *)

Abbreviation bytes := (list Byte.byte).

(** The exceptions the handlers tell apart: [except ValueError] against
    [except Exception]. *)
Inductive exn :=
| ValueError
| TypeError
| IntegrityError
| OSError
| RuntimeError.

Definition is_ValueError (e : exn) : bool :=
  match e with ValueError => true | _ => false end.

(** A call either returns or raises. *)
Inductive outcome (A : Type) :=
| Returned (a : A)
| Raised (e : exn).
Arguments Returned {A} a.
Arguments Raised {A} e.

(** The second component of the handlers' [(success, message)] pairs.  The
    f-strings keep their interpolated values instead of rendering them. *)
Inductive message :=
| Msg (s : string)
| MsgExn (s : string) (e : exn)
| MsgBalance (transaction_type : string) (new_balance : float).

(** ** Configuration *)

Definition ENROLLMENT_DIR : string := "enrolled_faces".
Definition TEMP_DB_DIR : string := "temp_clean_db".

(** ** os.path (posixpath) *)

Module os_path.

Definition sep : ascii := "/"%char.

Definition startswith_sep (p : string) : bool :=
  match p with
  | String c _ => bool_decide (c = sep)
  | EmptyString => false
  end.

Fixpoint endswith_sep (p : string) : bool :=
  match p with
  | EmptyString => false
  | String c EmptyString => bool_decide (c = sep)
  | String _ p' => endswith_sep p'
  end.

(** [os.path.join(a, b)] *)
Definition join (a b : string) : string :=
  if startswith_sep b then b
  else if bool_decide (a = "") || endswith_sep a then a +:+ b
  else a +:+ "/" +:+ b.

(** [p.split('/')] *)
Fixpoint split (p : string) : list string :=
  match p with
  | EmptyString => [""]
  | String c p' =>
      if bool_decide (c = sep) then "" :: split p'
      else match split p' with
           | comp :: comps => String c comp :: comps
           | [] => [String c ""]
           end
  end.

(** [os.path.basename(p)]: what follows the last separator. *)
Definition basename (p : string) : string := List.last (split p) "".

(** The loop of [normpath] over the components; [new_comps] is kept in
    reverse. *)
Fixpoint norm_comps (initial_slashes : nat) (new_comps comps : list string)
  : list string :=
  match comps with
  | [] => new_comps
  | comp :: comps' =>
      if bool_decide (comp = "") || bool_decide (comp = ".") then
        norm_comps initial_slashes new_comps comps'
      else if negb (bool_decide (comp = ".."))
              || (bool_decide (initial_slashes = 0%nat)
                  && bool_decide (new_comps = []))
              || match new_comps with
                 | top :: _ => bool_decide (top = "..")
                 | [] => false
                 end
      then norm_comps initial_slashes (comp :: new_comps) comps'
      else norm_comps initial_slashes (List.tl new_comps) comps'
  end.

Fixpoint join_comps (comps : list string) : string :=
  match comps with
  | [] => ""
  | [comp] => comp
  | comp :: comps' => comp +:+ "/" +:+ join_comps comps'
  end.

Definition count_initial_slashes (p : string) : nat :=
  match p with
  | String c1 (String c2 (String c3 _)) =>
      if bool_decide (c1 = sep) then
        if bool_decide (c2 = sep) && negb (bool_decide (c3 = sep))
        then 2 else 1
      else 0
  | String c1 (String c2 EmptyString) =>
      if bool_decide (c1 = sep) then
        if bool_decide (c2 = sep) then 2 else 1
      else 0
  | String c1 EmptyString => if bool_decide (c1 = sep) then 1 else 0
  | EmptyString => 0
  end%nat.

(** [os.path.normpath(p)] *)
Definition normpath (p : string) : string :=
  if bool_decide (p = "") then "."
  else
    let initial_slashes := count_initial_slashes p in
    let comps := rev (norm_comps initial_slashes [] (split p)) in
    let path :=
      String.concat "" (replicate initial_slashes "/") +:+ join_comps comps in
    if bool_decide (path = "") then "." else path.

End os_path.

(** ** Persistent and session state *)

(** A row of [users] without its key [account_no]. *)
Record user_row := {
  name : string;
  balance : float;
  enrolled_face_path : string
}.

(** [st.session_state.user_account] *)
Record user_account := {
  ua_account_no : string;
  ua_name : string;
  ua_balance : float;
  ua_path : string
}.

Record session_state := {
  logged_in : bool;
  session_user_account : option user_account;
  debug_match_path : option string
}.

Record state := {
  users : gmap string user_row;
  enrolled_faces : gmap string bytes;
  temp_clean_db : option (gmap string bytes);
  session : session_state
}.

Definition with_users (u : gmap string user_row) (s : state) : state :=
  {| users := u; enrolled_faces := enrolled_faces s;
     temp_clean_db := temp_clean_db s; session := session s |}.

Definition with_enrolled_faces (d : gmap string bytes) (s : state) : state :=
  {| users := users s; enrolled_faces := d;
     temp_clean_db := temp_clean_db s; session := session s |}.

Definition with_temp_clean_db (d : option (gmap string bytes)) (s : state)
  : state :=
  {| users := users s; enrolled_faces := enrolled_faces s;
     temp_clean_db := d; session := session s |}.

Definition with_session (ss : session_state) (s : state) : state :=
  {| users := users s; enrolled_faces := enrolled_faces s;
     temp_clean_db := temp_clean_db s; session := ss |}.

(** The state after [init_db] on a fresh installation and the first run of
    [main]. *)
Definition init_state : state :=
  {| users := ∅; enrolled_faces := ∅; temp_clean_db := None;
     session := {| logged_in := false; session_user_account := None;
                   debug_match_path := None |} |}.

(** ** update_balance *)

(** [st.session_state.user_account['balance'] = new_balance]: an item
    assignment, which raises [TypeError] on [None]. *)
Definition set_session_balance (new_balance : float) (ss : session_state)
  : option session_state :=
  match session_user_account ss with
  | Some ua =>
      Some {| logged_in := logged_in ss;
              session_user_account :=
                Some {| ua_account_no := ua_account_no ua;
                        ua_name := ua_name ua;
                        ua_balance := new_balance;
                        ua_path := ua_path ua |};
              debug_match_path := debug_match_path ss |}
  | None => None
  end.

Definition set_balance (new_balance : float) (row : user_row) : user_row :=
  {| name := name row; balance := new_balance;
     enrolled_face_path := enrolled_face_path row |}.

(** [UPDATE users SET balance=? WHERE account_no=?].  SQLite binds a NaN as
    NULL, which the column [balance REAL NOT NULL] refuses: the statement
    then raises [sqlite3.IntegrityError] and changes nothing. *)
Definition update_row_balance (account_no : string) (new_balance : float)
    (u : gmap string user_row) : outcome (gmap string user_row) :=
  if is_nan new_balance then Raised IntegrityError
  else Returned (alter (set_balance new_balance) account_no u).

Definition update_balance (account_no : string) (amount : float)
    (transaction_type : string) (s : state)
  : outcome (bool * message) * state :=
  match users s !! account_no with
  | None =>
      (* c.fetchone() is None, and None[0] raises *)
      (Raised TypeError, s)
  | Some row =>
      let current_balance := balance row in
      let commit new_balance :=
        match update_row_balance account_no new_balance (users s) with
        | Raised e => (Raised e, s)
        | Returned u' =>
            let s' := with_users u' s in
            match set_session_balance new_balance (session s') with
            | Some ss =>
                (Returned (true, MsgBalance transaction_type new_balance),
                 with_session ss s')
            | None => (Raised TypeError, s')
            end
        end in
      if bool_decide (transaction_type = "Withdrawal") then
        if (current_balance <? amount)%float then
          (Returned (false, Msg "Insufficient funds."), s)
        else commit (current_balance - amount)%float
      else if bool_decide (transaction_type = "Deposit") then
        commit (current_balance + amount)%float
      else
        (Returned (false, Msg "Invalid transaction type."), s)
  end.

(** ** enroll_user and show_login_view *)

(** A row of a DataFrame returned by [DeepFace.find]: the path of an image
    of the searched directory and its distance to the probe (the frame is
    sorted by increasing distance and holds the images within the model's
    threshold). *)
Record find_row := {
  identity : string;
  distance : float
}.

(** What a column of type REAL gives back for a float written to it: SQLite
    keeps a real without fractional part as an integer and converts it back
    when it is read, so -0.0 comes back as 0.0; every other number comes
    back bit for bit. *)
Definition sqlite_real (x : float) : float :=
  if is_zero x then 0%float else x.

(** [INSERT INTO users VALUES (?, ?, ?, ?)] under the constraints of the
    table: [account_no] PRIMARY KEY, [enrolled_face_path] UNIQUE,
    [balance] NOT NULL (a NaN is bound as NULL).  The row of the table
    holds the balance as the column stores it. *)
Definition insert_user (account_no : string) (row : user_row)
    (u : gmap string user_row) : outcome (gmap string user_row) :=
  if bool_decide (is_Some (u !! account_no)) then Raised IntegrityError
  else if bool_decide
            (map_Exists
               (λ _ r, enrolled_face_path r = enrolled_face_path row) u)
  then Raised IntegrityError
  else if is_nan (balance row) then Raised IntegrityError
  else
    Returned (<[account_no := set_balance (sqlite_real (balance row)) row]> u).

(** [SELECT * FROM users WHERE enrolled_face_path=?] then [fetchone()] *)
Definition select_by_face_path (p : string) (u : gmap string user_row)
  : option (string * user_row) :=
  head (filter (λ kr, enrolled_face_path kr.2 = p) (map_to_list u)).

(** [os.listdir] of a directory of the model *)
Definition listdir (d : gmap string bytes) : list string :=
  (map_to_list d).*1.

(** What [show_login_view] reports. *)
Inductive login_result :=
| Authenticated (ua : user_account)
| AuthenticationFailed (debug : option string)
| VerificationError (e : exn)
| NoImageCaptured
| Uncaught (e : exn).

Definition PROBE_FILE : string :=
  os_path.join ENROLLMENT_DIR "temp_auth_file.jpg".

Section handlers.

(** PIL: [Image.open] of the submitted bytes followed by [image.save] to a
    path: the content written to the file, or the exception raised (the
    bytes are no image, the path cannot be written); a save that raises is
    taken to leave no file. *)
Variable Image_save : string → bytes → outcome bytes.

(** [DeepFace.extract_faces(..., enforce_detection=True)] on a saved
    image: [None] when a face is found, [Some ValueError] when none is,
    another exception when the library fails. *)
Variable extract_faces : bytes → option exn.

(** [DeepFace.find(img_path, db_path, ...)] on the content of the probe
    file and of the searched directory: a list of frames, or an
    exception. *)
Variable DeepFace_find :
  bytes → gmap string bytes → outcome (list (list find_row)).

(** [enroll_user].  The image is written to and removed from
    [os.path.join(ENROLLMENT_DIR, account_no + ".jpg")]; in the directory
    this is the entry [account_no +:+ ".jpg"], which is the file the code
    touches when the account number holds no path separator. *)
Definition enroll_user (account_no name : string) (initial_deposit : float)
    (image_bytes : bytes) (s : state) : (bool * message) * state :=
  match users s !! account_no with
  | Some _ => ((false, Msg "Error: Account number already exists."), s)
  | None =>
      let user_file_name := account_no +:+ ".jpg" in
      let file_path := os_path.join ENROLLMENT_DIR user_file_name in
      match Image_save file_path image_bytes with
      | Raised e => ((false, MsgExn "Error saving image file: " e), s)
      | Returned data =>
          let s1 :=
            with_enrolled_faces
              (<[user_file_name := data]> (enrolled_faces s)) s in
          let removed :=
            with_enrolled_faces
              (delete user_file_name (enrolled_faces s1)) s1 in
          match extract_faces data with
          | Some e =>
              if is_ValueError e then
                ((false,
                  Msg "Error: No clear face detected in the image. Enrollment failed."),
                 removed)
              else ((false, MsgExn "DeepFace processing error: " e), removed)
          | None =>
              let row := {| name := name; balance := initial_deposit;
                            enrolled_face_path := file_path |} in
              match insert_user account_no row (users s1) with
              | Returned u' =>
                  ((true, Msg "User successfully enrolled and account created!"),
                   with_users u' s1)
              | Raised e =>
                  ((false, MsgExn "Database insertion error: " e), removed)
              end
          end
      end
  end.

(** *** The steps of [show_login_view] *)

(** [image.save(PROBE_FILE)] *)
Definition save_probe (data : bytes) (s : state) : state :=
  with_enrolled_faces
    (<[os_path.basename PROBE_FILE := data]> (enrolled_faces s)) s.

(** [os.makedirs(TEMP_DB_DIR, exist_ok=True)] *)
Definition makedirs_temp (s : state) : state :=
  with_temp_clean_db (Some (default ∅ (temp_clean_db s))) s.

Definition enrolled_files (s : state) : list string :=
  filter (λ f, f ≠ os_path.basename PROBE_FILE) (listdir (enrolled_faces s)).

(** [shutil.copy(os.path.join(ENROLLMENT_DIR, file_name), TEMP_DB_DIR)] *)
Definition copy_to_temp (src : gmap string bytes)
    (tmp : gmap string bytes) (file_name : string) : gmap string bytes :=
  match src !! file_name with
  | Some data => <[file_name := data]> tmp
  | None => tmp
  end.

Definition copy_enrolled (s : state) : state :=
  with_temp_clean_db
    (Some (foldl (copy_to_temp (enrolled_faces s))
             (default ∅ (temp_clean_db s)) (enrolled_files s))) s.

Definition set_debug_match_path (d : option string) (s : state) : state :=
  with_session
    {| logged_in := logged_in (session s);
       session_user_account := session_user_account (session s);
       debug_match_path := d |} s.

(** The [finally] block. *)
Definition cleanup (s : state) : state :=
  let s1 :=
    if bool_decide (is_Some (enrolled_faces s !! os_path.basename PROBE_FILE))
    then with_enrolled_faces
           (delete (os_path.basename PROBE_FILE) (enrolled_faces s)) s
    else s in
  match temp_clean_db s1 with
  | Some _ => with_temp_clean_db None s1
  | None => s1
  end.

(** Lines 210 to 234: from the frames to the row of [users], with the
    path looked up. *)
Definition best_match_path (top : find_row) : string :=
  let match_filename := os_path.basename (identity top) in
  os_path.normpath (os_path.join ENROLLMENT_DIR match_filename).

Definition process_results (results : list (list find_row)) (s : state)
  : option (string * user_row) * state :=
  match results with
  | (top :: _) :: _ =>
      let s1 := set_debug_match_path (Some (best_match_path top)) s in
      (select_by_face_path (best_match_path top) (users s1), s1)
  | _ => (None, s)
  end.

(** Lines 237 to 252. *)
Definition final_check (user_data : option (string * user_row)) (s : state)
  : login_result * state :=
  match user_data with
  | Some (account_no, row) =>
      let ua := {| ua_account_no := account_no; ua_name := name row;
                   ua_balance := balance row;
                   ua_path := enrolled_face_path row |} in
      (Authenticated ua,
       with_session
         {| logged_in := true; session_user_account := Some ua;
            debug_match_path := debug_match_path (session s) |} s)
  | None => (AuthenticationFailed (debug_match_path (session s)), s)
  end.

(** The body of the [try]. *)
Definition verify (s : state) : login_result * state :=
  let probe := default [] (enrolled_faces s !! os_path.basename PROBE_FILE) in
  match DeepFace_find probe (default ∅ (temp_clean_db s)) with
  | Raised e => (VerificationError e, s)
  | Returned results =>
      let '(user_data, s1) := process_results results s in
      final_check user_data s1
  end.

(** [show_login_view] once the button is pressed: its report and the
    states the call goes through, the last one being the state it
    leaves. *)
Definition show_login_view_trace (captured_image : option bytes) (s : state)
  : login_result * list state :=
  match captured_image with
  | None => (NoImageCaptured, [])
  | Some image_bytes =>
      match Image_save PROBE_FILE image_bytes with
      | Raised e => (Uncaught e, [])
      | Returned data =>
          let s1 := save_probe data s in
          let s2 := makedirs_temp s1 in
          let s3 := copy_enrolled s2 in
          let s4 := set_debug_match_path None s3 in
          let '(r, s5) := verify s4 in
          (r, [s1; s2; s3; s4; s5; cleanup s5])
      end
  end.

Definition show_login_view (captured_image : option bytes) (s : state)
  : login_result * state :=
  let '(r, trace) := show_login_view_trace captured_image s in
  (r, List.last trace s).

End handlers.

(** ** Sequences of requests *)

(** The three handlers as the requests a caller can issue. *)
Inductive request :=
| Enroll (account_no name : string) (initial_deposit : float)
    (image_bytes : bytes)
| Authenticate (captured_image : option bytes)
| Transact (account_no : string) (amount : float) (transaction_type : string).

Section requests.

Variable Image_save : string → bytes → outcome bytes.
Variable extract_faces : bytes → option exn.
Variable DeepFace_find :
  bytes → gmap string bytes → outcome (list (list find_row)).

Definition handle (r : request) (s : state) : state :=
  match r with
  | Enroll account_no name initial_deposit image_bytes =>
      (enroll_user Image_save extract_faces
         account_no name initial_deposit image_bytes s).2
  | Authenticate captured_image =>
      (show_login_view Image_save DeepFace_find captured_image s).2
  | Transact account_no amount transaction_type =>
      (update_balance account_no amount transaction_type s).2
  end.

(** The states reached from [init_state] by requests that all satisfy
    [ok]. *)
Inductive reachable (ok : request → Prop) : state → Prop :=
| reachable_init : reachable ok init_state
| reachable_step s r :
    reachable ok s → ok r → reachable ok (handle r s).

End requests.

(** No condition on the requests: the handlers called with any arguments. *)
Definition any_request (r : request) : Prop := True.

(** The requests the forms of the script can issue: [show_enrollment_view]
    reads the initial deposit from a [st.number_input] with
    [min_value=10.00], [show_transaction_view] reads the amount from one with
    [min_value=1.00]. *)
Definition form_request (r : request) : Prop :=
  match r with
  | Enroll _ _ initial_deposit _ => (10 <=? initial_deposit)%float = true
  | Authenticate _ => True
  | Transact _ amount _ => (1 <=? amount)%float = true
  end.

(** The requests whose amounts are not negative, whatever their size. *)
Definition nonneg_request (r : request) : Prop :=
  match r with
  | Enroll _ _ initial_deposit _ => (0 <=? initial_deposit)%float = true
  | Authenticate _ => True
  | Transact _ amount _ => (0 <=? amount)%float = true
  end.

Definition balance_nonneg (row : user_row) : Prop :=
  (0 <=? balance row)%float = true.

Definition balances_nonneg (s : state) : Prop :=
  map_Forall (λ _ row, balance_nonneg row) (users s).

(** ** The template store during a login *)

(** The directory [DeepFace.find] searches in a login that saved [data] as
    its probe. *)
Definition searched_directory (data : bytes) (s : state) : gmap string bytes :=
  default ∅
    (temp_clean_db (copy_enrolled (makedirs_temp (save_probe data s)))).

(** The enrollment directory is never written: every state of the trace of
    a call started in [s] has the directory of [s]. *)
Definition template_store_untouched (s : state) (trace : list state) : Prop :=
  Forall (λ s', enrolled_faces s' = enrolled_faces s) trace.

(** Only the reserved name of the probe is written: every other file of
    the enrollment directory, and the table [users], stay as in [s]. *)
Definition enrolled_templates_untouched (s : state) (trace : list state)
  : Prop :=
  Forall
    (λ s', users s' = users s
           ∧ ∀ f, f ≠ os_path.basename PROBE_FILE →
                  enrolled_faces s' !! f = enrolled_faces s !! f)
    trace.

(** ** Binary64 *)

(** [0 <= x] on the specification of a binary64 number: a zero of either
    sign, a positive finite number or the positive infinity. *)
Definition sf_nonneg (x : spec_float) : Prop :=
  SFleb (S754_zero false) x = true.

(** ** The resolver policy of the specification *)

(** The policy is stated on similarity scores, higher being closer;
    [DeepFace.find] reports distances, lower being closer. *)
Definition similarity (r : find_row) : float := (- distance r)%float.

Inductive decision :=
| MATCH (candidate : string) (score : float)
| NO_MATCH
| AMBIGUOUS.

(** The threshold and margin policy, in the words of the specification:
    on the candidates ranked by decreasing similarity, the best one is a
    MATCH when its score crosses the threshold and its gap to the second
    best exceeds the margin; NO_MATCH when its score fails the threshold;
    AMBIGUOUS when it passes and the margin check fails. *)
Definition spec_resolve (threshold margin : float)
    (ranked : list (string * float)) : decision :=
  match ranked with
  | [] => NO_MATCH
  | (candidate, best) :: rest =>
      if negb (threshold <=? best)%float then NO_MATCH
      else match rest with
           | [] => MATCH candidate best
           | (_, second) :: _ =>
               if (margin <? best - second)%float then MATCH candidate best
               else AMBIGUOUS
           end
  end.

(** The candidates of a frame as the policy sees them. *)
Definition ranked_candidates (frame : list find_row) : list (string * float) :=
  map (λ r, (os_path.basename (identity r), similarity r)) frame.

(** Two candidates above the threshold and within the margin of each
    other. *)
Definition ambiguous_pair (threshold margin : float) (r1 r2 : find_row)
  : Prop :=
  (threshold <=? similarity r1)%float = true
  ∧ (threshold <=? similarity r2)%float = true
  ∧ (similarity r1 - similarity r2 <=? margin)%float = true.

(** ** Sample data *)

Module sample.

(** PIL writes what it is given; only the empty input is no image. *)
Definition Image_save (file_path : string) (b : bytes) : outcome bytes :=
  match b with
  | [] => Raised OSError
  | _ => Returned b
  end.

(** An image whose first byte is zero shows no face. *)
Definition extract_faces (b : bytes) : option exn :=
  match b with
  | Byte.x00 :: _ => Some ValueError
  | _ => None
  end.

(** A search that ranks 1001.jpg first at distance 0.20 and 1002.jpg
    second at distance 0.21, both within the threshold of the model. *)
Definition hit_ann : find_row :=
  {| identity := "temp_clean_db/1001.jpg"; distance := 0.20 |}.
Definition hit_bob : find_row :=
  {| identity := "temp_clean_db/1002.jpg"; distance := 0.21 |}.

Definition DeepFace_find (probe : bytes) (db : gmap string bytes)
  : outcome (list (list find_row)) :=
  Returned [[hit_ann; hit_bob]].

Definition face_ann : bytes := [Byte.x01; Byte.x0a].
Definition face_bob : bytes := [Byte.x02; Byte.x0b].
Definition no_face : bytes := [Byte.x00; Byte.x0c].
Definition probe : bytes := [Byte.x03; Byte.x0d].

Definition row_ann : user_row :=
  {| name := "Ann"; balance := 100;
     enrolled_face_path := "enrolled_faces/1001.jpg" |}.

Definition row_bob : user_row :=
  {| name := "Bob"; balance := 10.1;
     enrolled_face_path := "enrolled_faces/1002.jpg" |}.

Definition account_ann : user_account :=
  {| ua_account_no := "1001"; ua_name := "Ann"; ua_balance := 100;
     ua_path := "enrolled_faces/1001.jpg" |}.

(** Ann (balance 100.00) and Bob (balance 10.10) enrolled, nobody logged
    in. *)
Definition enrolled : state :=
  {| users := {[ "1001" := row_ann; "1002" := row_bob ]};
     enrolled_faces := {[ "1001.jpg" := face_ann; "1002.jpg" := face_bob ]};
     temp_clean_db := None;
     session := session init_state |}.

(** The same with Ann logged in. *)
Definition ann_logged_in : state :=
  with_session
    {| logged_in := true; session_user_account := Some account_ann;
       debug_match_path := Some "enrolled_faces/1001.jpg" |} enrolled.

Definition bob_logged_in : state :=
  with_session
    {| logged_in := true;
       session_user_account :=
         Some {| ua_account_no := "1002"; ua_name := "Bob";
                 ua_balance := 10.1;
                 ua_path := "enrolled_faces/1002.jpg" |};
       debug_match_path := Some "enrolled_faces/1002.jpg" |} enrolled.

End sample.

(** ** The views and [main] *)

(** The entries of the sidebar menu, "Login" and "Enroll New User". *)
Inductive menu_choice :=
| MenuLogin
| MenuEnrollNewUser.

(** The values of the widgets in one run of the script.  A run draws the
    widgets of one view only and reads no others. *)
Record widgets := {
  choice : menu_choice;
  (* show_login_view *)
  captured_image : option bytes;
  auth_button_pressed : bool;
  (* show_enrollment_view *)
  new_account_no : string;
  new_name : string;
  initial_deposit : float;
  face_capture : option bytes;
  submitted : bool;
  (* show_transaction_view *)
  transaction_type : string;
  amount : float;
  complete_button : bool;
  confirm_log_out_button : bool
}.

(** What a run shows for the action it took. *)
Inductive report :=
| NothingDone
| Enrollment (success : bool) (m : message)
| LoginAttempt (r : login_result)
| Transaction (success : bool) (m : message)
| BalanceShown (b : float)
| LoggedOut
| Crash (e : exn).

Section views.

Variable Image_save : string → bytes → outcome bytes.
Variable extract_faces : bytes → option exn.
Variable DeepFace_find :
  bytes → gmap string bytes → outcome (list (list find_row)).

Definition show_enrollment_view (w : widgets) (s : state) : report * state :=
  if submitted w then
    match face_capture w with
    | Some image_bytes =>
        if bool_decide (new_account_no w = "") || bool_decide (new_name w = "")
        then (Enrollment false (Msg "Please fill in Account Number and Name."),
              s)
        else
          let '((success, m), s') :=
            enroll_user Image_save extract_faces
              (new_account_no w) (new_name w) (initial_deposit w)
              image_bytes s in
          (Enrollment success m, s')
    | None =>
        (Enrollment false (Msg "Please take a picture of your face to enroll."),
         s)
    end
  else (NothingDone, s).

(** The header of the view reads [st.session_state.user_account['name']],
    which raises [TypeError] on [None]. *)
Definition show_transaction_view (w : widgets) (s : state) : report * state :=
  match session_user_account (session s) with
  | None => (Crash TypeError, s)
  | Some ua =>
      if bool_decide (transaction_type w = "Withdrawal")
         || bool_decide (transaction_type w = "Deposit")
      then
        if complete_button w then
          match update_balance (ua_account_no ua) (amount w)
                  (transaction_type w) s with
          | (Returned (success, m), s') => (Transaction success m, s')
          | (Raised e, s') => (Crash e, s')
          end
        else (NothingDone, s)
      else if bool_decide (transaction_type w = "Balance Check") then
        (BalanceShown (ua_balance ua), s)
      else if bool_decide (transaction_type w = "Log Out") then
        if confirm_log_out_button w then
          (LoggedOut,
           with_session
             {| logged_in := false; session_user_account := None;
                debug_match_path := debug_match_path (session s) |} s)
        else (NothingDone, s)
      else (NothingDone, s)
  end.

(** One run of [main] on a state where [init_db] has run before and the
    model is loaded: the table and the session keys exist, so its first
    lines change nothing. *)
Definition main (w : widgets) (s : state) : report * state :=
  match choice w with
  | MenuLogin =>
      if logged_in (session s) then show_transaction_view w s
      else if auth_button_pressed w then
        let '(r, s') :=
          show_login_view Image_save DeepFace_find (captured_image w) s in
        (LoginAttempt r, s')
      else (NothingDone, s)
  | MenuEnrollNewUser => show_enrollment_view w s
  end.

(** What the widgets allow: [max_chars=10] on the account number,
    [min_value=10.00] on the initial deposit, [min_value=1.00] on the
    amount, and the four options of the radio. *)
Definition widgets_ok (w : widgets) : Prop :=
  (String.length (new_account_no w) ≤ 10)%nat
  ∧ (10 <=? initial_deposit w)%float = true
  ∧ (1 <=? amount w)%float = true
  ∧ transaction_type w ∈ ["Withdrawal"; "Deposit"; "Balance Check"; "Log Out"].

(** The states reached from [init_state] by runs of [main] in one browser
    session, the only one there is. *)
Inductive main_reachable : state → Prop :=
| main_reachable_init : main_reachable init_state
| main_reachable_run w s :
    main_reachable s → widgets_ok w → main_reachable (main w s).2.

(** *** Several browser sessions *)

(** Streamlit keeps one [st.session_state] for every browser session; the
    table and the directories are shared by all of them.  [stores] carries
    the shared part (its session component is the one of the last run),
    [sessions] the session states of the browsers connected.  Runs of
    different sessions are interleaved run by run: a run is not
    interrupted by another. *)
Record server := {
  stores : state;
  sessions : list session_state
}.

(** A browser connects: its session gets the keys [main] initialises. *)
Definition open_session (sv : server) : server :=
  {| stores := stores sv;
     sessions := (sessions sv ++ [session init_state])%list |}.

(** A run of [main] for the browser [i]: on the shared stores, with the
    session state of [i], which the run leaves changed. *)
Definition run_session (i : nat) (w : widgets) (sv : server)
  : report * server :=
  match sessions sv !! i with
  | Some ss =>
      let '(r, s') := main w (with_session ss (stores sv)) in
      (r, {| stores := s';
             sessions := <[i := session s']> (sessions sv) |})
  | None => (NothingDone, sv)
  end.

(** The servers reached from a fresh installation by browsers connecting
    and runs of [main] for any of them, in any order. *)
Inductive served : server → Prop :=
| served_init : served {| stores := init_state; sessions := [] |}
| served_open sv : served sv → served (open_session sv)
| served_run i w sv :
    served sv → widgets_ok w → served (run_session i w sv).2.

End views.

(** ** Invariants of the stores *)

(** The session holds an account exactly when somebody is logged in, and
    the account it holds is a row of [users], field by field. *)
Definition session_mirrors_users (s : state) : Prop :=
  match session_user_account (session s) with
  | Some ua =>
      logged_in (session s) = true
      ∧ users s !! ua_account_no ua
        = Some {| name := ua_name ua; balance := ua_balance ua;
                  enrolled_face_path := ua_path ua |}
  | None => logged_in (session s) = false
  end.

(** The same without the balance: the session holds an account exactly when
    somebody is logged in, and that account is a row of the table with the
    same name and image path.  The balance of the session is the one it
    last read or wrote, the balance of the row the one last stored, by any
    session. *)
Definition session_tracks_account
    (u : gmap string user_row) (ss : session_state) : Prop :=
  match session_user_account ss with
  | Some ua =>
      logged_in ss = true
      ∧ ∃ row, u !! ua_account_no ua = Some row
               ∧ name row = ua_name ua
               ∧ enrolled_face_path row = ua_path ua
  | None => logged_in ss = false
  end.

(** The path stored in a row is the one built from its account number. *)
Definition paths_consistent (u : gmap string user_row) : Prop :=
  ∀ a row, u !! a = Some row →
           enrolled_face_path row = os_path.join ENROLLMENT_DIR (a +:+ ".jpg").

(** Every file of the enrollment directory is the image of an account. *)
Definition no_orphan_files (s : state) : Prop :=
  ∀ f, is_Some (enrolled_faces s !! f) →
       ∃ a, is_Some (users s !! a) ∧ f = a +:+ ".jpg".

(** Every account has its image in the enrollment directory. *)
Definition accounts_have_templates (s : state) : Prop :=
  ∀ a, is_Some (users s !! a) → is_Some (enrolled_faces s !! (a +:+ ".jpg")).

(** A path with a separator in it. *)
Fixpoint has_sep (p : string) : bool :=
  match p with
  | EmptyString => false
  | String c p' => bool_decide (c = os_path.sep) || has_sep p'
  end.

(** The enrollments whose account number names a file of the enrollment
    directory. *)
Definition plain_enrollment (r : request) : Prop :=
  match r with
  | Enroll account_no _ _ _ => has_sep account_no = false
  | _ => True
  end.

(** The same within the ten characters of the form ([max_chars=10]). *)
Definition short_enrollment (r : request) : Prop :=
  match r with
  | Enroll account_no _ _ _ =>
      has_sep account_no = false ∧ (String.length account_no ≤ 10)%nat
  | _ => True
  end.

(** ** Auxiliary notions *)

(** A single path component that [normpath] keeps: no separator, not
    empty, not "." and not "..". *)
Definition plain (c : string) : Prop :=
  has_sep c = false ∧ c ≠ "" ∧ c ≠ "." ∧ c ≠ "..".

Definition with_session_balance (new_balance : float) (ss : session_state)
    (ua : user_account) : session_state :=
  {| logged_in := logged_in ss;
     session_user_account :=
       Some {| ua_account_no := ua_account_no ua; ua_name := ua_name ua;
               ua_balance := new_balance; ua_path := ua_path ua |};
     debug_match_path := debug_match_path ss |}.

Definition account_of_row (account_no : string) (row : user_row)
  : user_account :=
  {| ua_account_no := account_no; ua_name := name row;
     ua_balance := balance row; ua_path := enrolled_face_path row |}.

Definition stores_consistent (s : state) : Prop :=
  temp_clean_db s = None
  ∧ paths_consistent (users s)
  ∧ no_orphan_files s.

(** Account numbers within [max_chars=10]. *)
Definition account_numbers_short (s : state) : Prop :=
  ∀ a, is_Some (users s !! a) → (String.length a ≤ 10)%nat.

Definition templates_consistent (s : state) : Prop :=
  stores_consistent s
  ∧ accounts_have_templates s
  ∧ account_numbers_short s.

Definition ui_consistent (s : state) : Prop :=
  stores_consistent s
  ∧ accounts_have_templates s
  ∧ account_numbers_short s
  ∧ session_mirrors_users s.

Definition logged_out (s : state) : state :=
  with_session
    {| logged_in := false; session_user_account := None;
       debug_match_path := debug_match_path (session s) |} s.

(** ** Sample runs *)

Module sample_ui.

(** A search that finds no face in the probe. *)
Definition DeepFace_raises (probe : bytes) (db : gmap string bytes)
  : outcome (list (list find_row)) :=
  Raised ValueError.

(** The enrollment form filled in for Ann and submitted. *)
Definition enroll_ann : widgets :=
  {| choice := MenuEnrollNewUser;
     captured_image := None; auth_button_pressed := false;
     new_account_no := "1001"; new_name := "Ann"; initial_deposit := 100;
     face_capture := Some sample.face_ann; submitted := true;
     transaction_type := "Withdrawal"; amount := 1;
     complete_button := false; confirm_log_out_button := false |}.

(** The same form without a name. *)
Definition enroll_nameless : widgets :=
  {| choice := MenuEnrollNewUser;
     captured_image := None; auth_button_pressed := false;
     new_account_no := "1003"; new_name := ""; initial_deposit := 100;
     face_capture := Some sample.face_ann; submitted := true;
     transaction_type := "Withdrawal"; amount := 1;
     complete_button := false; confirm_log_out_button := false |}.

(** A picture taken and the authentication button pressed. *)
Definition login : widgets :=
  {| choice := MenuLogin;
     captured_image := Some sample.probe; auth_button_pressed := true;
     new_account_no := ""; new_name := ""; initial_deposit := 10;
     face_capture := None; submitted := false;
     transaction_type := "Withdrawal"; amount := 1;
     complete_button := false; confirm_log_out_button := false |}.

(** A withdrawal of 30.00 completed. *)
Definition withdraw_30 : widgets :=
  {| choice := MenuLogin;
     captured_image := None; auth_button_pressed := false;
     new_account_no := ""; new_name := ""; initial_deposit := 10;
     face_capture := None; submitted := false;
     transaction_type := "Withdrawal"; amount := 30;
     complete_button := true; confirm_log_out_button := false |}.

(** "Balance Check" selected. *)
Definition balance_check : widgets :=
  {| choice := MenuLogin;
     captured_image := None; auth_button_pressed := false;
     new_account_no := ""; new_name := ""; initial_deposit := 10;
     face_capture := None; submitted := false;
     transaction_type := "Balance Check"; amount := 1;
     complete_button := false; confirm_log_out_button := false |}.

(** Ann enrolled through the form, then logged in. *)
Definition ann_enrolled : state :=
  (main sample.Image_save sample.extract_faces sample.DeepFace_find
     enroll_ann init_state).2.

Definition ann_at_atm : state :=
  (main sample.Image_save sample.extract_faces sample.DeepFace_find
     login ann_enrolled).2.

(** An account enrolled under the number "temp_auth_file". *)
Definition reserved_enrolled : state :=
  (enroll_user sample.Image_save sample.extract_faces
     "temp_auth_file" "Eve" 10 sample.face_ann init_state).2.

Definition run (i : nat) (w : widgets) (sv : server) : server :=
  (run_session sample.Image_save sample.extract_faces sample.DeepFace_find
     i w sv).2.

(** Two browsers; Ann enrolls in the first and logs in in both. *)
Definition ann_twice : server :=
  run 1 login
    (run 0 login
       (run 0 enroll_ann
          (open_session
             (open_session {| stores := init_state; sessions := [] |})))).

(** Ann withdraws 30.00 in the first browser. *)
Definition ann_withdrew : server := run 0 withdraw_30 ann_twice.

End sample_ui.

(** * Properties *)

(** ** Signs of binary64 sums and differences *)

Module binary64.

Lemma nonneg_cases (x : spec_float) :
  sf_nonneg x ↔
  match x with
  | S754_zero _ | S754_finite false _ _ | S754_infinity false => True
  | _ => False
  end.
Proof.
  unfold sf_nonneg, SFleb.
  destruct x as [[]|[]| |[] m e]; simpl; split; (done || discriminate).
Qed.

Lemma digits2_pos_size (m : positive) : digits2_pos m = Pos.size m.
Proof. induction m; simpl; congruence. Qed.

Lemma shr_1_nonneg (mrs : shr_record) :
  (0 ≤ shr_m mrs)%Z → (0 ≤ shr_m (shr_1 mrs))%Z.
Proof.
  destruct mrs as [m r t]. simpl.
  destruct m as [|[p|p|]|[p|p|]]; simpl; lia.
Qed.

Lemma iter_shr_1_nonneg (p : positive) :
  ∀ mrs, (0 ≤ shr_m mrs)%Z → (0 ≤ shr_m (SpecFloat.iter_pos shr_1 p mrs))%Z.
Proof.
  induction p as [p IH|p IH|]; intros mrs Hm; simpl.
  - apply IH, IH, shr_1_nonneg, Hm.
  - apply IH, IH, Hm.
  - apply shr_1_nonneg, Hm.
Qed.

Lemma shr_fexp_nonneg (m e : Z) (l : location) :
  (0 ≤ m)%Z → (0 ≤ shr_m (shr_fexp prec emax m e l).1)%Z.
Proof.
  intros Hm. unfold shr_fexp, shr.
  assert (0 ≤ shr_m (shr_record_of_loc m l))%Z as Hrec.
  { destruct l as [|[]]; simpl; exact Hm. }
  destruct (_ - e)%Z; simpl; [exact Hrec | | exact Hrec].
  apply iter_shr_1_nonneg, Hrec.
Qed.

Lemma round_nearest_even_nonneg (m : Z) (l : location) :
  (0 ≤ m)%Z → (0 ≤ round_nearest_even m l)%Z.
Proof.
  intros Hm. destruct l as [|[]]; simpl; try lia.
  destruct (Z.even m); lia.
Qed.

Lemma binary_round_aux_nonneg (m e : Z) (l : location) :
  (0 ≤ m)%Z → sf_nonneg (binary_round_aux prec emax false m e l).
Proof.
  intros Hm. unfold binary_round_aux.
  pose proof (shr_fexp_nonneg m e l Hm) as H1.
  destruct (shr_fexp prec emax m e l) as [mrs' e']. simpl in H1.
  pose proof (shr_fexp_nonneg _ e' loc_Exact
                (round_nearest_even_nonneg _ (loc_of_shr_record mrs') H1))
    as H2.
  destruct (shr_fexp prec emax _ e' loc_Exact) as [mrs'' e'']. simpl in H2.
  apply nonneg_cases.
  destruct (shr_m mrs'') as [|p|p]; [done | | lia].
  destruct (e'' <=? emax - prec)%Z; done.
Qed.

Lemma binary_round_nonneg (m : positive) (e : Z) :
  sf_nonneg (binary_round prec emax false m e).
Proof.
  unfold binary_round. destruct (shl_align _ _ _) as [mz ez].
  apply binary_round_aux_nonneg. lia.
Qed.

Lemma SFadd_nonneg (x y : spec_float) :
  sf_nonneg x → sf_nonneg y → sf_nonneg (SF64add x y).
Proof.
  rewrite !nonneg_cases.
  destruct x as [[]|[]| |[] mx ex], y as [[]|[]| |[] my ey];
    simpl; try done.
  intros _ _. apply nonneg_cases, binary_round_nonneg.
Qed.

Lemma iter_xO_ge (m d : positive) : (m~0 ≤ Pos.iter xO m d)%positive.
Proof.
  induction d as [|d IH] using Pos.peano_ind.
  - simpl. lia.
  - rewrite Pos.iter_succ. lia.
Qed.

(** What validity says of a finite number: at most [prec] digits, an
    exponent from [emin] on, and all [prec] digits above [emin]. *)
Lemma bounded_digits (m : positive) (e : Z) :
  bounded prec emax m e = true →
  (Pos.size m ≤ 53)%positive
  ∧ (-1074 ≤ e)%Z
  ∧ ((-1074 < e)%Z → Pos.size m = 53%positive).
Proof.
  unfold bounded, canonical_mantissa, fexp, SpecFloat.emin, prec, emax.
  rewrite digits2_pos_size.
  intros [Hcanon _]%andb_true_iff. apply Z.eqb_eq in Hcanon.
  repeat split; lia.
Qed.

Lemma lt_pow2_size (m : positive) :
  (Pos.size m ≤ 53)%positive → (Z.pos m < 2 ^ 53)%Z.
Proof.
  intros Hsize. pose proof (Pos.size_gt m) as Hgt.
  apply Pos2Z.pos_lt_pos in Hgt. rewrite Pos2Z.inj_pow in Hgt.
  eapply Z.lt_le_trans; [exact Hgt |].
  apply Z.pow_le_mono_r; lia.
Qed.

Lemma ge_pow2_size (m : positive) :
  Pos.size m = 53%positive → (2 ^ 53 ≤ Z.pos m~0)%Z.
Proof.
  intros Hsize. pose proof (Pos.size_le m) as Hle.
  apply Pos2Z.pos_le_pos in Hle. rewrite Pos2Z.inj_pow, Hsize in Hle.
  exact Hle.
Qed.

(** Once aligned on the smaller exponent, the mantissa of the larger of
    two valid positive numbers is the larger one. *)
Lemma aligned_mantissas_ge (mx my : positive) (ex ey : Z) :
  bounded prec emax mx ex = true →
  bounded prec emax my ey = true →
  SFltb (S754_finite false mx ex) (S754_finite false my ey) = false →
  (Z.pos (shl_align my ey (Z.min ex ey)).1
   ≤ Z.pos (shl_align mx ex (Z.min ex ey)).1)%Z.
Proof.
  intros Hx Hy. unfold SFltb, SFcompare.
  destruct (Z.compare_spec ex ey) as [Heq|Hlt|Hgt]; [| discriminate |].
  - subst ey. rewrite Z.min_id. unfold shl_align. rewrite Z.sub_diag. simpl.
    change (Pos.compare_cont Eq mx my) with (Pos.compare mx my).
    destruct (Pos.compare_spec mx my); (discriminate || intros _; lia).
  - intros _. rewrite Z.min_r by lia.
    unfold shl_align. rewrite Z.sub_diag.
    destruct (ey - ex)%Z as [|d|d] eqn:Hd; try lia. simpl.
    apply bounded_digits in Hx as (_ & _ & Hfull).
    apply bounded_digits in Hy as (Hsize & Hemin & _).
    pose proof (lt_pow2_size my Hsize) as Hmy.
    pose proof (ge_pow2_size mx (Hfull ltac:(lia))) as Hmx.
    pose proof (iter_xO_ge mx d). lia.
Qed.

Lemma SFsub_nonneg (x y : spec_float) :
  valid_binary x = true → valid_binary y = true →
  sf_nonneg x → sf_nonneg y →
  SFltb x y = false →
  SF64sub x y ≠ S754_nan →
  sf_nonneg (SF64sub x y).
Proof.
  rewrite !nonneg_cases.
  destruct x as [[]|[]| |[] mx ex], y as [[]|[]| |[] my ey];
    simpl; try done.
  intros Hx Hy _ _ Hlt _.
  pose proof (aligned_mantissas_ge mx my ex ey Hx Hy Hlt) as Hge.
  apply nonneg_cases. unfold binary_normalize.
  destruct (_ - _)%Z as [|p|p] eqn:Hdiff; [done | | lia].
  apply binary_round_nonneg.
Qed.

(** A number above a positive finite one is not negative. *)
Lemma nonneg_above (m : positive) (e : Z) (x : spec_float) :
  SFleb (S754_finite false m e) x = true → sf_nonneg x.
Proof.
  rewrite nonneg_cases. unfold SFleb.
  destruct x as [[]|[]| |[] mx ex]; simpl; try done.
Qed.

(** *** On primitive floats *)

Lemma leb_zero (x : float) :
  (0 <=? x)%float = true ↔ sf_nonneg (Prim2SF x).
Proof. rewrite FloatAxioms.leb_spec. reflexivity. Qed.

Lemma is_nan_false (x : float) :
  is_nan x = false → Prim2SF x ≠ S754_nan.
Proof.
  unfold is_nan. rewrite FloatAxioms.eqb_spec. intros Hnan Hx.
  rewrite Hx in Hnan. discriminate.
Qed.

Lemma add_nonneg (b a : float) :
  (0 <=? b)%float = true → (0 <=? a)%float = true →
  (0 <=? b + a)%float = true.
Proof.
  rewrite !leb_zero, FloatAxioms.add_spec. apply SFadd_nonneg.
Qed.

Lemma sub_nonneg (b a : float) :
  (0 <=? b)%float = true → (0 <=? a)%float = true →
  (b <? a)%float = false →
  is_nan (b - a) = false →
  (0 <=? b - a)%float = true.
Proof.
  rewrite !leb_zero, FloatAxioms.ltb_spec, FloatAxioms.sub_spec.
  intros Hb Ha Hlt Hnan%is_nan_false. rewrite FloatAxioms.sub_spec in Hnan.
  apply SFsub_nonneg; auto using Prim2SF_valid.
Qed.

Lemma one_leb_nonneg (a : float) :
  (1 <=? a)%float = true → (0 <=? a)%float = true.
Proof. rewrite leb_zero, FloatAxioms.leb_spec. apply nonneg_above. Qed.

Lemma ten_leb_nonneg (a : float) :
  (10 <=? a)%float = true → (0 <=? a)%float = true.
Proof. rewrite leb_zero, FloatAxioms.leb_spec. apply nonneg_above. Qed.

(** The column REAL keeps the sign of a balance that is not negative. *)
Lemma sqlite_real_nonneg (x : float) :
  (0 <=? x)%float = true → (0 <=? sqlite_real x)%float = true.
Proof.
  intros Hx. unfold sqlite_real. destruct (is_zero x); [reflexivity|exact Hx].
Qed.

(** A number that is not zero is stored as it is. *)
Lemma sqlite_real_nonzero (x : float) :
  is_zero x = false → sqlite_real x = x.
Proof. intros Hx. unfold sqlite_real. rewrite Hx. reflexivity. Qed.

Lemma ten_leb_nonzero (x : float) :
  (10 <=? x)%float = true → is_zero x = false.
Proof.
  unfold is_zero. rewrite FloatAxioms.leb_spec.
  destruct (x =? PrimFloat.zero)%float eqn:Hzero; [|reflexivity].
  rewrite FloatAxioms.eqb_spec in Hzero.
  destruct (Prim2SF x) as [[]|[]| |[] m e]; vm_compute in Hzero;
    try discriminate; vm_compute; discriminate.
Qed.

Lemma sqlite_real_ten (x : float) :
  (10 <=? x)%float = true → sqlite_real x = x.
Proof. intros Hx. apply sqlite_real_nonzero, ten_leb_nonzero, Hx. Qed.

Lemma sqlite_real_is_nan (x : float) :
  is_nan x = false → is_nan (sqlite_real x) = false.
Proof.
  intros Hx. unfold sqlite_real. destruct (is_zero x); [reflexivity|exact Hx].
Qed.

End binary64.

(** ** os.path on the paths of the script *)

Example basename_identity :
  os_path.basename "temp_clean_db/1001.jpg" = "1001.jpg".
Proof. reflexivity. Qed.

Example join_enrollment_dir :
  os_path.join ENROLLMENT_DIR "1001.jpg" = "enrolled_faces/1001.jpg".
Proof. reflexivity. Qed.

Example normpath_collapses :
  os_path.normpath "enrolled_faces//./a/../1001.jpg" = "enrolled_faces/1001.jpg".
Proof. vm_compute. reflexivity. Qed.

Example normpath_keeps_leading_dotdot :
  os_path.normpath "../a/../../b/" = "../../b".
Proof. vm_compute. reflexivity. Qed.

Example probe_file_name : os_path.basename PROBE_FILE = "temp_auth_file.jpg".
Proof. reflexivity. Qed.

(** ** update_balance *)

(** C2: for an existing account and a withdrawal amount strictly greater
    than its balance, [update_balance] returns the failure
    "Insufficient funds." and leaves the whole state, so the stored balance,
    as it was. *)
Theorem update_balance_insufficient_funds
    (account_no : string) (amount : float) (s : state) (row : user_row) :
  users s !! account_no = Some row →
  (balance row <? amount)%float = true →
  update_balance account_no amount "Withdrawal" s
  = (Returned (false, Msg "Insufficient funds."), s).
Proof.
  intros Hrow Hlt. unfold update_balance.
  rewrite Hrow. simpl. rewrite Hlt. reflexivity.
Qed.

(** The example of the specification: balance 100.00, withdrawal of 150.00. *)
Lemma update_balance_insufficient_funds_witness :
  update_balance "1001" 150 "Withdrawal" sample.ann_logged_in
  = (Returned (false, Msg "Insufficient funds."), sample.ann_logged_in)
  ∧ users sample.ann_logged_in !! "1001" = Some sample.row_ann
  ∧ balance sample.row_ann = 100%float.
Proof.
  split; [| split; [vm_compute; reflexivity | reflexivity]].
  apply (update_balance_insufficient_funds "1001" 150 _ sample.row_ann).
  - vm_compute. reflexivity.
  - vm_compute. reflexivity.
Defined.

(** C5: for an account number with no row in [users], [update_balance]
    does not return: [c.fetchone()] is [None] and subscripting it raises
    [TypeError]; the state is left as it was. *)
Theorem update_balance_unknown_account_raises
    (account_no : string) (amount : float) (transaction_type : string)
    (s : state) :
  users s !! account_no = None →
  update_balance account_no amount transaction_type s = (Raised TypeError, s).
Proof. intros Hnone. unfold update_balance. rewrite Hnone. reflexivity. Qed.

Lemma update_balance_unknown_account_raises_witness :
  users sample.ann_logged_in !! "9999" = None
  ∧ update_balance "9999" 50 "Deposit" sample.ann_logged_in
    = (Raised TypeError, sample.ann_logged_in).
Proof.
  split; [vm_compute; reflexivity |].
  apply (update_balance_unknown_account_raises "9999" 50 "Deposit").
  vm_compute. reflexivity.
Defined.

(** C10: for an existing account and a transaction kind that is neither
    'Withdrawal' nor 'Deposit', [update_balance] returns the failure
    "Invalid transaction type." and leaves the whole state, so the stored
    balance, as it was. *)
Theorem update_balance_invalid_transaction_type
    (account_no : string) (amount : float) (transaction_type : string)
    (s : state) (row : user_row) :
  users s !! account_no = Some row →
  transaction_type ≠ "Withdrawal" →
  transaction_type ≠ "Deposit" →
  update_balance account_no amount transaction_type s
  = (Returned (false, Msg "Invalid transaction type."), s).
Proof.
  intros Hrow Hw Hd. unfold update_balance. rewrite Hrow. simpl.
  rewrite !bool_decide_eq_false_2 by assumption. reflexivity.
Qed.

Lemma update_balance_invalid_transaction_type_witness :
  update_balance "1001" 25 "Balance Check" sample.ann_logged_in
  = (Returned (false, Msg "Invalid transaction type."), sample.ann_logged_in).
Proof.
  apply (update_balance_invalid_transaction_type
           "1001" 25 "Balance Check" _ sample.row_ann).
  - vm_compute. reflexivity.
  - discriminate.
  - discriminate.
Defined.

(** The round trip of the specification: from 100.00, a deposit of 50.00
    gives 150.00, a withdrawal of 150.00 gives 0.00, and a further one of
    0.01 is refused. *)
Example deposit_withdraw_round_trip :
  let r1 := update_balance "1001" 50 "Deposit" sample.ann_logged_in in
  let r2 := update_balance "1001" 150 "Withdrawal" r1.2 in
  let r3 := update_balance "1001" 0.01 "Withdrawal" r2.2 in
  r1.1 = Returned (true, MsgBalance "Deposit" 150)
  ∧ r2.1 = Returned (true, MsgBalance "Withdrawal" 0)
  ∧ r3 = (Returned (false, Msg "Insufficient funds."), r2.2).
Proof. repeat split; vm_compute; reflexivity. Qed.

(** ** enroll_user *)

Section enroll_user_properties.

Variable Image_save : string → bytes → outcome bytes.
Variable extract_faces : bytes → option exn.

(** C8: when the account number already has a row in [users],
    [enroll_user] returns the failure "Error: Account number already
    exists." and leaves the whole state as it was: no row, no file of
    [enrolled_faces] is touched. *)
Theorem enroll_user_duplicate_identity
    (account_no name : string) (initial_deposit : float)
    (image_bytes : bytes) (s : state) :
  is_Some (users s !! account_no) →
  enroll_user Image_save extract_faces
    account_no name initial_deposit image_bytes s
  = ((false, Msg "Error: Account number already exists."), s).
Proof.
  intros [row Hrow]. unfold enroll_user. rewrite Hrow. reflexivity.
Qed.


End enroll_user_properties.

Lemma enroll_user_duplicate_identity_witness :
  enroll_user sample.Image_save sample.extract_faces
    "1001" "Eve" 5000 sample.probe sample.enrolled
  = ((false, Msg "Error: Account number already exists."), sample.enrolled).
Proof.
  apply enroll_user_duplicate_identity.
  exists sample.row_ann. vm_compute. reflexivity.
Defined.


(** The sample state is the one two enrollments build. *)
Example sample_enrolled_by_enroll_user :
  handle sample.Image_save sample.extract_faces sample.DeepFace_find
    (Enroll "1002" "Bob" 10.1 sample.face_bob)
    (handle sample.Image_save sample.extract_faces sample.DeepFace_find
       (Enroll "1001" "Ann" 100 sample.face_ann) init_state)
  = sample.enrolled.
Proof. vm_compute. reflexivity. Qed.

(** ** show_login_view *)

Section show_login_view_properties.

Variable Image_save : string → bytes → outcome bytes.
Variable DeepFace_find :
  bytes → gmap string bytes → outcome (list (list find_row)).

Lemma process_results_frame (results : list (list find_row)) (s : state) :
  users (process_results results s).2 = users s
  ∧ enrolled_faces (process_results results s).2 = enrolled_faces s
  ∧ temp_clean_db (process_results results s).2 = temp_clean_db s.
Proof. destruct results as [|[|top rest] frames]; simpl; auto. Qed.

Lemma final_check_frame
    (user_data : option (string * user_row)) (s : state) :
  users (final_check user_data s).2 = users s
  ∧ enrolled_faces (final_check user_data s).2 = enrolled_faces s
  ∧ temp_clean_db (final_check user_data s).2 = temp_clean_db s.
Proof. destruct user_data as [[account_no row]|]; simpl; auto. Qed.

Lemma verify_frame (s : state) :
  users (verify DeepFace_find s).2 = users s
  ∧ enrolled_faces (verify DeepFace_find s).2 = enrolled_faces s
  ∧ temp_clean_db (verify DeepFace_find s).2 = temp_clean_db s.
Proof.
  unfold verify.
  destruct (DeepFace_find _ _) as [results|e]; simpl; [|auto].
  pose proof (process_results_frame results s) as (Hu & He & Ht).
  destruct (process_results results s) as [user_data s1]. simpl in *.
  pose proof (final_check_frame user_data s1) as (Hu' & He' & Ht').
  rewrite Hu', He', Ht'. auto.
Qed.

Lemma cleanup_enrolled_faces (s : state) :
  enrolled_faces (cleanup s)
  = delete (os_path.basename PROBE_FILE) (enrolled_faces s).
Proof.
  unfold cleanup. case_bool_decide as Hprobe.
  - destruct (temp_clean_db _); reflexivity.
  - assert (enrolled_faces s !! os_path.basename PROBE_FILE = None) as Hnone.
    { destruct (enrolled_faces s !! os_path.basename PROBE_FILE) eqn:E;
        [exfalso; apply Hprobe; eauto | reflexivity]. }
    rewrite (delete_id _ _ Hnone).
    destruct (temp_clean_db s); reflexivity.
Qed.

Lemma cleanup_users (s : state) : users (cleanup s) = users s.
Proof.
  unfold cleanup. case_bool_decide; simpl;
    destruct (temp_clean_db _); reflexivity.
Qed.

Lemma cleanup_temp_clean_db (s : state) : temp_clean_db (cleanup s) = None.
Proof.
  unfold cleanup. case_bool_decide; simpl;
    destruct (temp_clean_db s) eqn:E; simpl; auto.
Qed.

Lemma copy_to_temp_lookup_ne
    (src tmp : gmap string bytes) (file_name f : string) :
  f ≠ file_name → copy_to_temp src tmp file_name !! f = tmp !! f.
Proof.
  intros Hne. unfold copy_to_temp.
  destruct (src !! file_name); [|reflexivity].
  apply lookup_insert_ne. congruence.
Qed.

(** The copy loop writes no name outside the list it runs over. *)
Lemma foldl_copy_to_temp_lookup
    (src : gmap string bytes) (files : list string) (f : string) :
  f ∉ files →
  ∀ tmp, foldl (copy_to_temp src) tmp files !! f = tmp !! f.
Proof.
  induction files as [|file_name files IH]; intros Hnotin tmp; simpl.
  - reflexivity.
  - apply not_elem_of_cons in Hnotin as [Hne Hnotin].
    rewrite (IH Hnotin). apply copy_to_temp_lookup_ne. assumption.
Qed.

Lemma probe_not_in_enrolled_files (s : state) :
  os_path.basename PROBE_FILE ∉ enrolled_files s.
Proof.
  unfold enrolled_files. intros Hin.
  apply list_elem_of_filter in Hin as [Hne _]. apply Hne. reflexivity.
Qed.

(** The probe is not among the files copied for the search. *)
Lemma searched_directory_probe (data : bytes) (s : state) :
  searched_directory data s !! os_path.basename PROBE_FILE
  = default ∅ (temp_clean_db s) !! os_path.basename PROBE_FILE.
Proof.
  unfold searched_directory, copy_enrolled. simpl.
  apply foldl_copy_to_temp_lookup, probe_not_in_enrolled_files.
Qed.

(** C4, as amended: a login writes the probe into the enrollment
    directory, under the reserved name temp_auth_file.jpg, leaves it out
    of the copy it searches and removes it in its [finally] block.  At
    every point of the call the table [users] and every file of the
    directory under another name are as before the call; when the call
    ends the directory is the one before the call without a file of the
    reserved name, and the temporary directory is gone.  A call without
    an image, or whose image PIL cannot save, goes through no state. *)
Theorem login_confines_probe_to_reserved_name
    (captured_image : option bytes) (s : state) :
  let '(_, trace) :=
    show_login_view_trace Image_save DeepFace_find captured_image s in
  enrolled_templates_untouched s trace
  ∧ match captured_image with
    | None => trace = []
    | Some image_bytes =>
        match Image_save PROBE_FILE image_bytes with
        | Raised _ => trace = []
        | Returned data =>
            (∃ rest, trace = save_probe data s :: rest)
            ∧ enrolled_faces (save_probe data s)
              !! os_path.basename PROBE_FILE = Some data
            ∧ searched_directory data s !! os_path.basename PROBE_FILE
              = default ∅ (temp_clean_db s) !! os_path.basename PROBE_FILE
            ∧ enrolled_faces (List.last trace s)
              = delete (os_path.basename PROBE_FILE) (enrolled_faces s)
            ∧ temp_clean_db (List.last trace s) = None
        end
    end.
Proof.
  unfold show_login_view_trace.
  destruct captured_image as [image_bytes|];
    [|split; [constructor | reflexivity]].
  destruct (Image_save PROBE_FILE image_bytes) as [data|e];
    [|split; [constructor | reflexivity]].
  set (s4 := set_debug_match_path None
               (copy_enrolled (makedirs_temp (save_probe data s)))).
  pose proof (verify_frame s4) as (Hu & He & Ht).
  destruct (verify DeepFace_find s4) as [r s5]. simpl in Hu, He, Ht.
  assert (∀ f, f ≠ os_path.basename PROBE_FILE →
               <[os_path.basename PROBE_FILE := data]> (enrolled_faces s) !! f
               = enrolled_faces s !! f) as Hother.
  { intros f Hf. apply lookup_insert_ne. congruence. }
  split; [|repeat split].
  - unfold enrolled_templates_untouched.
    repeat apply Forall_cons_2; try apply Forall_nil_2;
      try (split; [reflexivity | exact Hother]).
    + split; [exact Hu | intros f Hf; rewrite He; apply Hother, Hf].
    + split; [rewrite cleanup_users; exact Hu |].
      intros f Hf. rewrite cleanup_enrolled_faces, He.
      rewrite lookup_delete_ne by congruence. apply Hother, Hf.
  - eexists. reflexivity.
  - simpl. apply lookup_insert_eq.
  - apply searched_directory_probe.
  - simpl. rewrite cleanup_enrolled_faces, He. simpl.
    apply delete_insert_eq.
  - simpl. apply cleanup_temp_clean_db.
Qed.

(** C1, as amended: when the search returns a first frame that is not
    empty, the login takes the first row of that frame, whatever the
    distances of the rows and however close the second one is: it
    authenticates as the account whose [enrolled_face_path] is the path
    rebuilt from that row, and fails only when no row of [users] has that
    path.  It has no AMBIGUOUS outcome. *)
Theorem login_trusts_top_candidate
    (image_bytes data : bytes) (s : state)
    (top : find_row) (rest : list find_row) (frames : list (list find_row)) :
  Image_save PROBE_FILE image_bytes = Returned data →
  DeepFace_find data (searched_directory data s)
  = Returned ((top :: rest) :: frames) →
  (show_login_view Image_save DeepFace_find (Some image_bytes) s).1
  = match select_by_face_path (best_match_path top) (users s) with
    | Some (account_no, row) =>
        Authenticated
          {| ua_account_no := account_no; ua_name := name row;
             ua_balance := balance row;
             ua_path := enrolled_face_path row |}
    | None => AuthenticationFailed (Some (best_match_path top))
    end.
Proof.
  intros Hsave Hfind.
  unfold show_login_view, show_login_view_trace. rewrite Hsave.
  unfold searched_directory in Hfind. simpl in Hfind.
  unfold verify. simpl.
  rewrite lookup_insert_eq. simpl.
  rewrite Hfind. simpl.
  destruct (select_by_face_path (best_match_path top) (users s))
    as [[account_no row]|]; reflexivity.
Qed.

End show_login_view_properties.

Lemma login_trusts_top_candidate_witness :
  (show_login_view sample.Image_save sample.DeepFace_find
     (Some sample.probe) sample.enrolled).1
  = match select_by_face_path (best_match_path sample.hit_ann)
            (users sample.enrolled) with
    | Some (account_no, row) =>
        Authenticated
          {| ua_account_no := account_no; ua_name := name row;
             ua_balance := balance row;
             ua_path := enrolled_face_path row |}
    | None => AuthenticationFailed (Some (best_match_path sample.hit_ann))
    end.
Proof.
  apply (login_trusts_top_candidate
           sample.Image_save sample.DeepFace_find
           sample.probe sample.probe sample.enrolled
           sample.hit_ann [sample.hit_bob] []).
  - reflexivity.
  - reflexivity.
Defined.

(** C1 as stated fails: 1001.jpg and 1002.jpg are both returned by the
    search, so within the threshold of the model, at distances 0.20 and
    0.21 of the probe.  Under a policy with threshold 0.40 on the distance
    and margin 0.05 the two form an ambiguous pair and the policy of the
    specification answers AMBIGUOUS; the login authenticates Ann, the owner
    of the first one. *)
Lemma login_resolves_ambiguous_pair_to_top :
  ambiguous_pair (-0.40) 0.05 sample.hit_ann sample.hit_bob
  ∧ spec_resolve (-0.40) 0.05
      (ranked_candidates [sample.hit_ann; sample.hit_bob]) = AMBIGUOUS
  ∧ show_login_view sample.Image_save sample.DeepFace_find
      (Some sample.probe) sample.enrolled
    = (Authenticated sample.account_ann, sample.ann_logged_in).
Proof.
  split; [|split].
  - repeat split; vm_compute; reflexivity.
  - vm_compute. reflexivity.
  - vm_compute. reflexivity.
Qed.

(** C4 as stated fails: the first thing a login does is to save the probe
    in the enrollment directory, next to the enrolled templates. *)
Lemma login_writes_probe_into_enrollment_dir :
  let trace :=
    (show_login_view_trace sample.Image_save sample.DeepFace_find
       (Some sample.probe) sample.enrolled).2 in
  (∃ s1 rest, trace = s1 :: rest
              ∧ enrolled_faces sample.enrolled !! "temp_auth_file.jpg" = None
              ∧ enrolled_faces s1 !! "temp_auth_file.jpg" = Some sample.probe)
  ∧ ¬ template_store_untouched sample.enrolled trace.
Proof.
  split.
  - eexists _, _. split; [reflexivity |].
    split; vm_compute; reflexivity.
  - intros Hall. apply Forall_cons_1 in Hall as [Hfirst _].
    apply (f_equal (λ d : gmap string bytes, d !! "temp_auth_file.jpg"))
      in Hfirst.
    vm_compute in Hfirst. discriminate.
Qed.

(** ** Amounts and balances *)

(** What [update_balance] does once the new balance is computed, for a
    caller that is logged in. *)
Lemma update_balance_commits
    (account_no : string) (amount : float) (transaction_type : string)
    (s : state) (row : user_row) (ua : user_account) (new_balance : float) :
  users s !! account_no = Some row →
  session_user_account (session s) = Some ua →
  is_nan new_balance = false →
  (transaction_type = "Withdrawal"
   ∧ (balance row <? amount)%float = false
   ∧ new_balance = (balance row - amount)%float)
  ∨ (transaction_type = "Deposit"
     ∧ new_balance = (balance row + amount)%float) →
  ∃ s',
    update_balance account_no amount transaction_type s
    = (Returned (true, MsgBalance transaction_type new_balance), s')
    ∧ users s' = <[account_no := set_balance new_balance row]> (users s)
    ∧ session_user_account (session s')
      = Some {| ua_account_no := ua_account_no ua; ua_name := ua_name ua;
                ua_balance := new_balance; ua_path := ua_path ua |}.
Proof.
  intros Hrow Hua Hnan Hkind. unfold update_balance. rewrite Hrow. simpl.
  assert (alter (set_balance new_balance) account_no (users s)
          = <[account_no := set_balance new_balance row]> (users s)) as Halter.
  { apply map_eq. intros k. destruct (decide (k = account_no)) as [->|Hk].
    - rewrite lookup_alter_eq, lookup_insert_eq, Hrow. reflexivity.
    - rewrite lookup_alter_ne, lookup_insert_ne by congruence. reflexivity. }
  destruct Hkind as [(-> & Hlt & ->)|(-> & ->)]; simpl.
  - rewrite Hlt. unfold update_row_balance, set_session_balance.
    rewrite Hnan. simpl. rewrite Hua. eexists. rewrite Halter. eauto.
  - unfold update_row_balance, set_session_balance.
    rewrite Hnan. simpl. rewrite Hua. eexists. rewrite Halter. eauto.
Qed.

(** C6, as amended: [update_balance] does not look at the sign of the
    amount.  For an existing account and a caller that is logged in, a
    Deposit of any amount, positive or not, returns success and stores
    balance + amount, and a Withdrawal of any amount that does not exceed
    the balance returns success and stores balance - amount (as long as the
    result is a number).  Amounts below 1.00 are kept away by the number
    input of the transaction view only. *)
Theorem update_balance_applies_any_amount
    (account_no : string) (amount : float) (s : state)
    (row : user_row) (ua : user_account) :
  users s !! account_no = Some row →
  session_user_account (session s) = Some ua →
  (is_nan (balance row + amount) = false →
   (update_balance account_no amount "Deposit" s).1
   = Returned (true, MsgBalance "Deposit" (balance row + amount))
   ∧ users (update_balance account_no amount "Deposit" s).2 !! account_no
     = Some (set_balance (balance row + amount) row))
  ∧ ((balance row <? amount)%float = false →
     is_nan (balance row - amount) = false →
     (update_balance account_no amount "Withdrawal" s).1
     = Returned (true, MsgBalance "Withdrawal" (balance row - amount))
     ∧ users (update_balance account_no amount "Withdrawal" s).2 !! account_no
       = Some (set_balance (balance row - amount) row)).
Proof.
  intros Hrow Hua. split.
  - intros Hnan.
    destruct (update_balance_commits account_no amount "Deposit" s row ua
                (balance row + amount) Hrow Hua Hnan) as (s' & -> & Hu & _);
      [right; auto |].
    simpl. rewrite Hu, lookup_insert_eq. auto.
  - intros Hlt Hnan.
    destruct (update_balance_commits account_no amount "Withdrawal" s row ua
                (balance row - amount) Hrow Hua Hnan) as (s' & -> & Hu & _);
      [left; auto |].
    simpl. rewrite Hu, lookup_insert_eq. auto.
Qed.

(** A deposit and a withdrawal of -50.00, on a balance of 100.00. *)
Lemma update_balance_applies_any_amount_witness :
  ((update_balance "1001" (-50) "Deposit" sample.ann_logged_in).1
   = Returned (true, MsgBalance "Deposit" (100 + -50))
   ∧ users (update_balance "1001" (-50) "Deposit" sample.ann_logged_in).2
     !! "1001"
     = Some (set_balance (100 + -50) sample.row_ann))
  ∧ ((update_balance "1001" (-50) "Withdrawal" sample.ann_logged_in).1
     = Returned (true, MsgBalance "Withdrawal" (100 - -50))
     ∧ users (update_balance "1001" (-50) "Withdrawal" sample.ann_logged_in).2
       !! "1001"
       = Some (set_balance (100 - -50) sample.row_ann)).
Proof.
  assert (users sample.ann_logged_in !! "1001" = Some sample.row_ann) as Hrow
    by (vm_compute; reflexivity).
  destruct (update_balance_applies_any_amount
              "1001" (-50) sample.ann_logged_in
              sample.row_ann sample.account_ann Hrow eq_refl)
    as [Hdeposit Hwithdrawal].
  split.
  - apply Hdeposit. reflexivity.
  - apply Hwithdrawal; reflexivity.
Defined.

(** C6 as stated fails: a Deposit of -50.00 on Ann's 100.00 is no error, it
    returns success and leaves her 50.00; a Deposit of 0.00 returns success
    as well. *)
Lemma update_balance_accepts_nonpositive_amount :
  (-50 <=? 0)%float = true
  ∧ (update_balance "1001" (-50) "Deposit" sample.ann_logged_in).1
    = Returned (true, MsgBalance "Deposit" 50)
  ∧ balance <$>
      users (update_balance "1001" (-50) "Deposit" sample.ann_logged_in).2
      !! "1001"
    = Some 50%float
  ∧ (update_balance "1001" 0 "Deposit" sample.ann_logged_in).1
    = Returned (true, MsgBalance "Deposit" 100).
Proof. repeat split; vm_compute; reflexivity. Qed.

(** C9, as amended: balances and amounts are binary64 numbers (the column
    is [balance REAL], the forms give Python floats) and [update_balance]
    computes with their rounded [+] and [-].  A Deposit followed by a
    Withdrawal of the same amount, both accepted, leaves the stored balance
    (balance + amount) - amount with both roundings, which need not be the
    balance it started from. *)
Theorem deposit_then_withdrawal_rounds_twice
    (account_no : string) (amount : float) (s : state)
    (row : user_row) (ua : user_account) :
  users s !! account_no = Some row →
  session_user_account (session s) = Some ua →
  is_nan (balance row + amount) = false →
  (balance row + amount <? amount)%float = false →
  is_nan (balance row + amount - amount) = false →
  let s1 := (update_balance account_no amount "Deposit" s).2 in
  let s2 := (update_balance account_no amount "Withdrawal" s1).2 in
  users s2 !! account_no
  = Some (set_balance (balance row + amount - amount) row).
Proof.
  intros Hrow Hua Hnan1 Hlt Hnan2. simpl.
  destruct (update_balance_commits account_no amount "Deposit" s row ua
              (balance row + amount) Hrow Hua Hnan1)
    as (s1 & -> & Hu1 & Hua1); [right; auto |].
  simpl.
  assert (users s1 !! account_no
          = Some (set_balance (balance row + amount) row)) as Hrow1.
  { rewrite Hu1. apply lookup_insert_eq. }
  destruct (update_balance_commits account_no amount "Withdrawal" s1 _ _
              (balance row + amount - amount) Hrow1 Hua1 Hnan2)
    as (s2 & -> & Hu2 & _); [left; auto |].
  simpl. rewrite Hu2. apply lookup_insert_eq.
Qed.

(** Bob's 10.10, a deposit of 20.20 and a withdrawal of 20.20. *)
Lemma deposit_then_withdrawal_rounds_twice_witness :
  let s1 := (update_balance "1002" 20.2 "Deposit" sample.bob_logged_in).2 in
  let s2 := (update_balance "1002" 20.2 "Withdrawal" s1).2 in
  users s2 !! "1002"
  = Some (set_balance (10.1 + 20.2 - 20.2) sample.row_bob).
Proof.
  apply (deposit_then_withdrawal_rounds_twice
           "1002" 20.2 sample.bob_logged_in sample.row_bob
           {| ua_account_no := "1002"; ua_name := "Bob"; ua_balance := 10.1;
              ua_path := "enrolled_faces/1002.jpg" |}).
  - vm_compute. reflexivity.
  - reflexivity.
  - reflexivity.
  - reflexivity.
  - reflexivity.
Defined.

(** C9 as stated fails: the balance does not come back.  Bob holds 10.10;
    after a deposit of 20.20 and a withdrawal of 20.20, both successful,
    the stored balance is 10.099999999999998, below 10.10. *)
Lemma deposit_then_withdrawal_drifts :
  let r1 := update_balance "1002" 20.2 "Deposit" sample.bob_logged_in in
  let r2 := update_balance "1002" 20.2 "Withdrawal" r1.2 in
  balance <$> users sample.bob_logged_in !! "1002" = Some 10.1%float
  ∧ r1.1 = Returned (true, MsgBalance "Deposit" (10.1 + 20.2))
  ∧ r2.1 = Returned (true, MsgBalance "Withdrawal" (10.1 + 20.2 - 20.2))
  ∧ balance <$> users r2.2 !! "1002" = Some 10.099999999999998%float
  ∧ (10.099999999999998 =? 10.1)%float = false
  ∧ (10.099999999999998 <? 10.1)%float = true
  ∧ users r2.2 !! "1002" ≠ users sample.bob_logged_in !! "1002".
Proof.
  repeat split; try (vm_compute; reflexivity).
  intros Heq. apply (f_equal (fmap (λ row, Prim2SF (balance row)))) in Heq.
  vm_compute in Heq. discriminate.
Qed.

(** ** Balances never go below zero through the forms *)

Lemma update_balance_keeps_balances_nonneg
    (account_no : string) (amount : float) (transaction_type : string)
    (s : state) :
  (0 <=? amount)%float = true →
  balances_nonneg s →
  balances_nonneg (update_balance account_no amount transaction_type s).2.
Proof.
  intros Hamount0 Hall. unfold update_balance.
  destruct (users s !! account_no) as [row|] eqn:Hrow; [|exact Hall].
  pose proof (Hall account_no row Hrow) as Hbal. unfold balance_nonneg in Hbal.
  assert (∀ new_balance,
            (is_nan new_balance = false → (0 <=? new_balance)%float = true) →
            balances_nonneg
              (match update_row_balance account_no new_balance (users s) with
               | Raised e => (Raised e, s)
               | Returned u' =>
                   match set_session_balance new_balance
                           (session (with_users u' s)) with
                   | Some ss =>
                       (Returned
                          (true, MsgBalance transaction_type new_balance),
                        with_session ss (with_users u' s))
                   | None => (Raised TypeError, with_users u' s)
                   end
               end).2) as Hcommit.
  { intros new_balance Hnew. unfold update_row_balance.
    destruct (is_nan new_balance) eqn:Hnan; [exact Hall|].
    assert (map_Forall (λ _ r, balance_nonneg r)
              (alter (set_balance new_balance) account_no (users s))) as Hu.
    { intros k r Hk. destruct (decide (k = account_no)) as [->|Hne].
      - rewrite lookup_alter_eq, Hrow in Hk. injection Hk as <-.
        apply Hnew. reflexivity.
      - rewrite lookup_alter_ne in Hk by congruence. exact (Hall k r Hk). }
    simpl. destruct (set_session_balance _ _); exact Hu. }
  simpl. case_bool_decide.
  - destruct (balance row <? amount)%float eqn:Hlt; [exact Hall|].
    apply Hcommit. intros Hnan. apply binary64.sub_nonneg; assumption.
  - case_bool_decide; [|exact Hall].
    apply Hcommit. intros _. apply binary64.add_nonneg; assumption.
Qed.

Lemma enroll_user_keeps_balances_nonneg
    (Image_save : string → bytes → outcome bytes) (extract_faces : bytes → option exn)
    (account_no name : string) (initial_deposit : float)
    (image_bytes : bytes) (s : state) :
  (0 <=? initial_deposit)%float = true →
  balances_nonneg s →
  balances_nonneg
    (enroll_user Image_save extract_faces
       account_no name initial_deposit image_bytes s).2.
Proof.
  intros Hdeposit Hall. unfold enroll_user.
  destruct (users s !! account_no); [exact Hall|].
  destruct (Image_save _ image_bytes) as [data|e]; [|exact Hall].
  destruct (extract_faces data) as [e|].
  - destruct (is_ValueError e); exact Hall.
  - unfold insert_user. simpl.
    repeat (case_bool_decide; [exact Hall|]).
    destruct (is_nan initial_deposit); [exact Hall|]. simpl.
    apply map_Forall_insert_2; [|exact Hall].
    apply binary64.sqlite_real_nonneg, Hdeposit.
Qed.

Lemma show_login_view_users
    (Image_save : string → bytes → outcome bytes)
    (DeepFace_find :
       bytes → gmap string bytes → outcome (list (list find_row)))
    (captured_image : option bytes) (s : state) :
  users (show_login_view Image_save DeepFace_find captured_image s).2
  = users s.
Proof.
  unfold show_login_view, show_login_view_trace.
  destruct captured_image as [image_bytes|]; [|reflexivity].
  destruct (Image_save _ image_bytes) as [data|e]; [|reflexivity].
  set (s4 := set_debug_match_path None _).
  pose proof (verify_frame DeepFace_find s4) as (Hu & _).
  destruct (verify DeepFace_find s4) as [r s5]. simpl in *.
  rewrite cleanup_users. exact Hu.
Qed.

Section balance_invariant.

Variable Image_save : string → bytes → outcome bytes.
Variable extract_faces : bytes → option exn.
Variable DeepFace_find :
  bytes → gmap string bytes → outcome (list (list find_row)).

(** C7, as amended: in every state reached from the initial one by
    enrollments, logins and transactions whose amounts are not negative
    (an initial deposit and a transaction amount of zero or more, of any
    size), every stored balance is at least zero.  The handlers do not
    check the sign of the amounts themselves. *)
Theorem nonneg_requests_keep_balances_nonneg (s : state) :
  reachable Image_save extract_faces DeepFace_find nonneg_request s →
  balances_nonneg s.
Proof.
  induction 1 as [|s r _ IH Hok].
  - apply map_Forall_empty.
  - destruct r as [account_no name initial_deposit image_bytes
                  |captured_image
                  |account_no amount transaction_type]; simpl in *.
    + apply enroll_user_keeps_balances_nonneg; assumption.
    + unfold balances_nonneg. rewrite show_login_view_users. exact IH.
    + apply update_balance_keeps_balances_nonneg; assumption.
Qed.

End balance_invariant.

(** The amounts the forms let through ([min_value=10.00] on the initial
    deposit, [min_value=1.00] on the amount) are not negative. *)
Lemma form_request_nonneg (r : request) : form_request r → nonneg_request r.
Proof.
  destruct r; simpl;
    auto using binary64.ten_leb_nonneg, binary64.one_leb_nonneg.
Qed.

(** Ann enrolls with 5.00, logs in and withdraws 0.50: both amounts are
    below the bounds of the forms. *)
Lemma nonneg_requests_keep_balances_nonneg_witness :
  balances_nonneg
    (handle sample.Image_save sample.extract_faces sample.DeepFace_find
       (Transact "1001" 0.5 "Withdrawal")
       (handle sample.Image_save sample.extract_faces sample.DeepFace_find
          (Authenticate (Some sample.probe))
          (handle sample.Image_save sample.extract_faces sample.DeepFace_find
             (Enroll "1001" "Ann" 5 sample.face_ann) init_state))).
Proof.
  apply (nonneg_requests_keep_balances_nonneg
           sample.Image_save sample.extract_faces sample.DeepFace_find).
  apply reachable_step; [apply reachable_step; [apply reachable_step |] |].
  - apply reachable_init.
  - reflexivity.
  - exact I.
  - reflexivity.
Defined.

(** C7 as stated fails: the handlers take any amount.  After an enrollment
    with 10.00, a Deposit of -500.00 is accepted and the stored balance is
    -490.00. *)
Lemma negative_deposit_makes_balance_negative :
  let s :=
    handle sample.Image_save sample.extract_faces sample.DeepFace_find
      (Transact "1001" (-500) "Deposit")
      (handle sample.Image_save sample.extract_faces sample.DeepFace_find
         (Enroll "1001" "Ann" 10 sample.face_ann) init_state) in
  reachable sample.Image_save sample.extract_faces sample.DeepFace_find
    any_request s
  ∧ balance <$> users s !! "1001" = Some (-490)%float
  ∧ (-490 <? 0)%float = true
  ∧ ¬ balances_nonneg s.
Proof.
  intros s. split; [|split; [|split]].
  - repeat (apply reachable_step; [|exact I]). apply reachable_init.
  - vm_compute. reflexivity.
  - vm_compute. reflexivity.
  - intros Hall.
    specialize (Hall "1001"
                  {| name := "Ann"; balance := -490;
                     enrolled_face_path := "enrolled_faces/1001.jpg" |}).
    unfold balance_nonneg in Hall. simpl in Hall.
    assert ((0 <=? -490)%float = true) as Hbad
      by (apply Hall; vm_compute; reflexivity).
    vm_compute in Hbad. discriminate.
Qed.

(** * Further properties of the handlers *)

(** ** Strings and paths *)

Lemma append_nil (b : string) : "" +:+ b = b.
Proof. reflexivity. Qed.

Lemma append_cons (x : ascii) (a b : string) :
  String x a +:+ b = String x (a +:+ b).
Proof. reflexivity. Qed.

Lemma length_append (a b : string) :
  String.length (a +:+ b) = (String.length a + String.length b)%nat.
Proof.
  induction a as [|x a IH]; rewrite ?append_nil, ?append_cons; simpl;
    [reflexivity | by rewrite IH].
Qed.

Lemma append_assoc (a b c : string) : (a +:+ b) +:+ c = a +:+ b +:+ c.
Proof.
  induction a as [|x a IH]; rewrite ?append_nil, ?append_cons;
    [reflexivity | by rewrite IH].
Qed.

Lemma append_inj_l (a b c : string) : a +:+ c = b +:+ c → a = b.
Proof.
  revert b. induction a as [|x a IH]; intros [|y b] Heq;
    rewrite ?append_nil, ?append_cons in Heq.
  - reflexivity.
  - apply (f_equal String.length) in Heq. simpl in Heq.
    rewrite length_append in Heq. lia.
  - apply (f_equal String.length) in Heq. simpl in Heq.
    rewrite length_append in Heq. lia.
  - injection Heq as -> Heq. f_equal. apply IH, Heq.
Qed.

Lemma has_sep_append (a b : string) :
  has_sep (a +:+ b) = has_sep a || has_sep b.
Proof.
  induction a as [|c a IH]; rewrite ?append_nil, ?append_cons; simpl;
    [reflexivity|].
  rewrite IH. apply orb_assoc.
Qed.

(** [split] on a path without separator, and across a separator. *)
Lemma split_no_sep (f : string) : has_sep f = false → os_path.split f = [f].
Proof.
  induction f as [|c f IH]; simpl; [reflexivity|].
  intros [Hc Hf]%orb_false_iff. rewrite Hc, (IH Hf). reflexivity.
Qed.

Lemma split_nonempty (p : string) : os_path.split p ≠ [].
Proof.
  destruct p as [|c p]; simpl; [discriminate|].
  case_bool_decide; [discriminate|].
  destruct (os_path.split p); discriminate.
Qed.

Lemma split_append_sep (a b : string) :
  os_path.split (a +:+ String os_path.sep b)
  = (os_path.split a ++ os_path.split b)%list.
Proof.
  induction a as [|c a IH]; rewrite ?append_nil, ?append_cons; simpl.
  - reflexivity.
  - rewrite IH. case_bool_decide; [reflexivity|].
    destruct (os_path.split a) as [|comp comps] eqn:Hsplit; [|reflexivity].
    exfalso. eapply split_nonempty, Hsplit.
Qed.

Lemma basename_append_sep (d f : string) :
  has_sep f = false →
  os_path.basename (d +:+ String os_path.sep f) = f.
Proof.
  intros Hf. unfold os_path.basename.
  rewrite split_append_sep, (split_no_sep f Hf).
  apply last_last.
Qed.

Lemma startswith_sep_has_sep (f : string) :
  has_sep f = false → os_path.startswith_sep f = false.
Proof.
  destruct f as [|c f]; simpl; [reflexivity|].
  intros [Hc _]%orb_false_iff. exact Hc.
Qed.

Lemma endswith_sep_append (d : string) :
  os_path.endswith_sep d = true → ∃ d0, d = d0 +:+ String os_path.sep "".
Proof.
  induction d as [|c d IH]; [discriminate|]. simpl.
  destruct d as [|c' d'].
  - intros Hc%bool_decide_eq_true. subst c. exists "". reflexivity.
  - intros Hend. destruct (IH Hend) as [d0 Hd0].
    exists (String c d0). rewrite append_cons, <- Hd0. reflexivity.
Qed.

(** [os.path.basename] undoes [os.path.join] on a plain file name. *)
Theorem basename_join (d f : string) :
  has_sep f = false → d ≠ "" →
  os_path.basename (os_path.join d f) = f.
Proof.
  intros Hf Hd. unfold os_path.join.
  rewrite (startswith_sep_has_sep f Hf).
  rewrite (bool_decide_eq_false_2 _ Hd). simpl.
  destruct (os_path.endswith_sep d) eqn:Hend.
  - destruct (endswith_sep_append d Hend) as [d0 ->].
    rewrite append_assoc. apply basename_append_sep, Hf.
  - apply basename_append_sep, Hf.
Qed.

Lemma count_initial_slashes_plain (c : ascii) (p : string) :
  c ≠ os_path.sep → os_path.count_initial_slashes (String c p) = 0%nat.
Proof.
  intros Hc. unfold os_path.count_initial_slashes.
  destruct p as [|c2 [|c3 p]]; rewrite (bool_decide_eq_false_2 _ Hc);
    reflexivity.
Qed.

Lemma join_plain (d f : string) :
  plain d → has_sep f = false →
  os_path.join d f = d +:+ String os_path.sep f.
Proof.
  intros (Hd & Hne & _) Hf. unfold os_path.join.
  rewrite (startswith_sep_has_sep f Hf), (bool_decide_eq_false_2 _ Hne).
  destruct (os_path.endswith_sep d) eqn:Hend; [|reflexivity].
  destruct (endswith_sep_append d Hend) as [d0 ->].
  rewrite has_sep_append in Hd. simpl in Hd.
  rewrite orb_true_r in Hd. discriminate.
Qed.

Lemma norm_comps_plain (d f : string) :
  plain d → plain f → os_path.norm_comps 0 [] [d; f] = [f; d].
Proof.
  intros (_ & Hdne & Hd1 & Hd2) (_ & Hfne & Hf1 & Hf2). simpl.
  rewrite !(bool_decide_eq_false_2 (d = "")),
          !(bool_decide_eq_false_2 (d = ".")),
          !(bool_decide_eq_false_2 (d = "..")),
          !(bool_decide_eq_false_2 (f = "")),
          !(bool_decide_eq_false_2 (f = ".")),
          !(bool_decide_eq_false_2 (f = "..")) by assumption.
  reflexivity.
Qed.

(** [os.path.normpath] leaves directory/file alone when both are plain. *)
Theorem normpath_join_plain (d f : string) :
  plain d → plain f →
  os_path.normpath (os_path.join d f) = os_path.join d f.
Proof.
  intros Hd Hf. rewrite (join_plain d f Hd (proj1 Hf)).
  pose proof (norm_comps_plain d f Hd Hf) as Hnorm.
  destruct Hd as (Hd & Hdne & _), Hf as (Hf & _).
  unfold os_path.normpath.
  destruct d as [|c d]; [done|]. rewrite append_cons.
  rewrite (bool_decide_eq_false_2
             (String c (d +:+ String os_path.sep f) = "")) by done.
  assert (c ≠ os_path.sep) as Hc.
  { simpl in Hd. apply orb_false_iff in Hd as [Hc _].
    by apply bool_decide_eq_false in Hc. }
  rewrite (count_initial_slashes_plain c _ Hc).
  rewrite <- append_cons, split_append_sep.
  rewrite (split_no_sep _ Hd), (split_no_sep _ Hf).
  change ([String c d] ++ [f])%list with [String c d; f].
  rewrite Hnorm.
  change (String.concat "" (replicate 0 "/")
          +:+ os_path.join_comps (rev [f; String c d]))
    with (String c (d +:+ String os_path.sep f)).
  rewrite (bool_decide_eq_false_2
             (String c (d +:+ String os_path.sep f) = "")) by done.
  reflexivity.
Qed.

Lemma jpg_plain (a : string) : has_sep a = false → plain (a +:+ ".jpg").
Proof.
  intros Ha. unfold plain. rewrite has_sep_append, Ha.
  split; [reflexivity|].
  repeat split; intros Heq; apply (f_equal String.length) in Heq;
    rewrite length_append in Heq; simpl in Heq; lia.
Qed.

Lemma ENROLLMENT_DIR_plain : plain ENROLLMENT_DIR.
Proof. repeat split; done. Qed.

Lemma TEMP_DB_DIR_plain : plain TEMP_DB_DIR.
Proof. repeat split; done. Qed.

(** The path rebuilt at login from a hit on the copy of an account's image
    is the path stored at its enrollment. *)
Theorem best_match_path_of_copy (a : string) (d : float) :
  has_sep a = false →
  best_match_path
    {| identity := os_path.join TEMP_DB_DIR (a +:+ ".jpg"); distance := d |}
  = os_path.join ENROLLMENT_DIR (a +:+ ".jpg").
Proof.
  intros Ha. pose proof (jpg_plain a Ha) as Hjpg.
  unfold best_match_path. simpl.
  rewrite basename_join by (apply Hjpg || done).
  apply normpath_join_plain; [apply ENROLLMENT_DIR_plain | exact Hjpg].
Qed.

Lemma join_ENROLLMENT_DIR (f : string) :
  os_path.join ENROLLMENT_DIR f
  = if os_path.startswith_sep f then f else "enrolled_faces/" +:+ f.
Proof. unfold os_path.join. destruct (os_path.startswith_sep f); reflexivity. Qed.

(** Two account numbers have the same image path only when they are the
    same. *)
Lemma stored_path_inj (a b : string) :
  os_path.join ENROLLMENT_DIR (a +:+ ".jpg")
  = os_path.join ENROLLMENT_DIR (b +:+ ".jpg") →
  a = b.
Proof.
  rewrite !join_ENROLLMENT_DIR.
  destruct (os_path.startswith_sep (a +:+ ".jpg")) eqn:Ha,
           (os_path.startswith_sep (b +:+ ".jpg")) eqn:Hb; intros Heq.
  - apply (append_inj_l _ _ _ Heq).
  - rewrite Heq in Ha. discriminate.
  - rewrite <- Heq in Hb. discriminate.
  - apply (inj (String.append "enrolled_faces/")) in Heq.
    apply (append_inj_l _ _ _ Heq).
Qed.

(** ** Looking a row up by its path *)

Lemma select_by_face_path_sound
    (p : string) (u : gmap string user_row) (a : string) (row : user_row) :
  select_by_face_path p u = Some (a, row) →
  u !! a = Some row ∧ enrolled_face_path row = p.
Proof.
  unfold select_by_face_path. intros Hin%head_Some_elem_of.
  apply list_elem_of_filter in Hin as [Hp Hin].
  apply elem_of_map_to_list in Hin. split; assumption.
Qed.

Lemma select_by_face_path_complete
    (u : gmap string user_row) (a : string) (row : user_row) :
  paths_consistent u →
  u !! a = Some row →
  select_by_face_path (enrolled_face_path row) u = Some (a, row).
Proof.
  intros Hpaths Ha.
  destruct (select_by_face_path (enrolled_face_path row) u)
    as [[a' row']|] eqn:Hsel.
  - apply select_by_face_path_sound in Hsel as [Ha' Hp'].
    assert (a' = a) as ->.
    { apply stored_path_inj.
      rewrite <- (Hpaths a' row' Ha'), <- (Hpaths a row Ha). exact Hp'. }
    congruence.
  - exfalso. unfold select_by_face_path in Hsel. apply head_None in Hsel.
    assert ((a, row) ∈ filter (λ kr : string * user_row,
                                 enrolled_face_path kr.2
                                 = enrolled_face_path row)
                         (map_to_list u)) as Hin.
    { apply list_elem_of_filter. split; [reflexivity|].
      apply elem_of_map_to_list, Ha. }
    rewrite Hsel in Hin. by apply elem_of_nil in Hin.
Qed.

(** ** enroll_user, case by case *)

Section enroll_user_cases.

Variable Image_save : string → bytes → outcome bytes.
Variable extract_faces : bytes → option exn.

Lemma insert_user_returned
    (a : string) (row : user_row) (u u' : gmap string user_row) :
  insert_user a row u = Returned u' →
  u' = <[a := set_balance (sqlite_real (balance row)) row]> u
  ∧ u !! a = None
  ∧ (∀ k r, u !! k = Some r → enrolled_face_path r ≠ enrolled_face_path row)
  ∧ is_nan (balance row) = false.
Proof.
  unfold insert_user.
  case_bool_decide as Hkey; [discriminate|].
  case_bool_decide as Hpath; [discriminate|].
  destruct (is_nan (balance row)); [discriminate|].
  intros [= <-]. repeat split.
  - destruct (u !! a) eqn:E; [exfalso; apply Hkey; eauto | reflexivity].
  - intros k r Hk Heq. apply Hpath. apply map_Exists_lookup. eauto.
Qed.

Lemma insert_user_paths_consistent
    (a : string) (row : user_row) (u : gmap string user_row) :
  paths_consistent u →
  u !! a = None →
  enrolled_face_path row = os_path.join ENROLLMENT_DIR (a +:+ ".jpg") →
  is_nan (balance row) = false →
  insert_user a row u
  = Returned (<[a := set_balance (sqlite_real (balance row)) row]> u).
Proof.
  intros Hpaths Hnew Hrow Hnan. unfold insert_user.
  rewrite bool_decide_eq_false_2 by (rewrite Hnew; by intros [? ?]).
  rewrite bool_decide_eq_false_2.
  - rewrite Hnan. reflexivity.
  - intros (k & r & Hk & Heq)%map_Exists_lookup.
    rewrite Hrow, (Hpaths k r Hk) in Heq.
    apply stored_path_inj in Heq. congruence.
Qed.

(** Every way out of [enroll_user]. *)
Lemma enroll_user_cases
    (account_no name : string) (initial_deposit : float)
    (image_bytes : bytes) (s : state) :
  let user_file_name := account_no +:+ ".jpg" in
  let file_path := os_path.join ENROLLMENT_DIR user_file_name in
  let '((success, _), s') :=
    enroll_user Image_save extract_faces
      account_no name initial_deposit image_bytes s in
  temp_clean_db s' = temp_clean_db s
  ∧ session s' = session s
  ∧ ((success = false
      ∧ users s' = users s
      ∧ (((is_Some (users s !! account_no)
           ∨ ∃ e, Image_save file_path image_bytes = Raised e)
          ∧ enrolled_faces s' = enrolled_faces s)
         ∨ (users s !! account_no = None
            ∧ (∃ data, Image_save file_path image_bytes = Returned data)
            ∧ enrolled_faces s'
              = delete user_file_name (enrolled_faces s))))
     ∨ (success = true
        ∧ users s !! account_no = None
        ∧ is_nan initial_deposit = false
        ∧ ∃ data,
            Image_save file_path image_bytes = Returned data
            ∧ extract_faces data = None
            ∧ users s'
              = <[account_no := {| name := name;
                                   balance := sqlite_real initial_deposit;
                                   enrolled_face_path := file_path |}]>
                  (users s)
            ∧ enrolled_faces s'
              = <[user_file_name := data]> (enrolled_faces s))).
Proof.
  unfold enroll_user.
  destruct (users s !! account_no) as [row|] eqn:Hrow; [simpl; eauto 10|].
  destruct (Image_save _ image_bytes) as [data|e] eqn:Hsave;
    [|simpl; eauto 10].
  assert (delete (account_no +:+ ".jpg")
            (<[account_no +:+ ".jpg" := data]> (enrolled_faces s))
          = delete (account_no +:+ ".jpg") (enrolled_faces s)) as Hdel
    by apply delete_insert_eq.
  destruct (extract_faces data) as [e|] eqn:Hface.
  - destruct (is_ValueError e); simpl; rewrite Hdel; eauto 10.
  - destruct (insert_user _ _ _) as [u'|e] eqn:Hins; simpl.
    + apply insert_user_returned in Hins as (-> & _ & _ & Hnan).
      simpl in Hnan. split; [reflexivity|]. split; [reflexivity|].
      right. eauto 10.
    + rewrite Hdel. eauto 10.
Qed.

End enroll_user_cases.

Section enroll_user_extras.

Variable Image_save : string → bytes → outcome bytes.
Variable extract_faces : bytes → option exn.

(** X1: For an account number without path separator: when [enroll_user]
    reports success, the account number was new, PIL saved the image and a
    face was found in it; afterwards the row holds the submitted name, the
    deposit as the column REAL stores it (-0.0 as 0.0, any other number
    bit for bit) and the path of the image, the image is in the enrollment
    directory under the name of the account, and no other row or file has
    changed. *)
Theorem enroll_user_success_creates_account
    (account_no name : string) (initial_deposit : float)
    (image_bytes : bytes) (s : state) :
  has_sep account_no = false →
  (enroll_user Image_save extract_faces
     account_no name initial_deposit image_bytes s).1.1 = true →
  let s' :=
    (enroll_user Image_save extract_faces
       account_no name initial_deposit image_bytes s).2 in
  let file_path := os_path.join ENROLLMENT_DIR (account_no +:+ ".jpg") in
  users s !! account_no = None
  ∧ users s' !! account_no
    = Some {| name := name; balance := sqlite_real initial_deposit;
              enrolled_face_path := file_path |}
  ∧ (∃ data, Image_save file_path image_bytes = Returned data
             ∧ extract_faces data = None
             ∧ enrolled_faces s' !! (account_no +:+ ".jpg") = Some data)
  ∧ (∀ k, k ≠ account_no → users s' !! k = users s !! k)
  ∧ (∀ f, f ≠ account_no +:+ ".jpg" →
          enrolled_faces s' !! f = enrolled_faces s !! f).
Proof.
  pose proof (enroll_user_cases Image_save extract_faces
                account_no name initial_deposit image_bytes s) as Hcases.
  destruct (enroll_user _ _ _ _ _ _ _) as [[success m] s']. simpl in *.
  intros _ ->.
  destruct Hcases as (_ & _ & [(Hfalse & _)|(_ & Hnew & _ & Hrest)]);
    [discriminate|].
  destruct Hrest as (data & Hsave & Hface & Hu & Hf).
  split; [exact Hnew|]. split; [rewrite Hu; apply lookup_insert_eq|].
  split; [exists data; rewrite Hf, lookup_insert_eq; auto|].
  split.
  - intros k Hk. rewrite Hu. apply lookup_insert_ne. congruence.
  - intros f Hne. rewrite Hf. apply lookup_insert_ne. congruence.
Qed.

(** X2: For an account number without path separator: when [enroll_user]
    reports a failure, whatever its cause, the table [users], the session
    and the temporary directory are as before, no file of another name has
    changed, and, when the account number was new and the image had been
    saved, the saved image is gone again. *)
Theorem enroll_user_failure_rolls_back
    (account_no name : string) (initial_deposit : float)
    (image_bytes : bytes) (s : state) :
  has_sep account_no = false →
  (enroll_user Image_save extract_faces
     account_no name initial_deposit image_bytes s).1.1 = false →
  let s' :=
    (enroll_user Image_save extract_faces
       account_no name initial_deposit image_bytes s).2 in
  let file_path := os_path.join ENROLLMENT_DIR (account_no +:+ ".jpg") in
  users s' = users s
  ∧ session s' = session s
  ∧ temp_clean_db s' = temp_clean_db s
  ∧ (∀ f, f ≠ account_no +:+ ".jpg" →
          enrolled_faces s' !! f = enrolled_faces s !! f)
  ∧ (users s !! account_no = None →
     (∃ data, Image_save file_path image_bytes = Returned data) →
     enrolled_faces s' !! (account_no +:+ ".jpg") = None).
Proof.
  pose proof (enroll_user_cases Image_save extract_faces
                account_no name initial_deposit image_bytes s) as Hcases.
  destruct (enroll_user _ _ _ _ _ _ _) as [[success m] s']. simpl in *.
  intros _ ->.
  destruct Hcases as (Htemp & Hsession & [(_ & Hu & Hfiles)|(Htrue & _)]);
    [|discriminate].
  repeat split; try assumption.
  - intros f Hne.
    destruct Hfiles as [(_ & ->)|(_ & _ & ->)]; [reflexivity|].
    apply lookup_delete_ne. congruence.
  - intros Hnew [data Hsave].
    destruct Hfiles as [([[row Hrow]|[e He]] & _)|(_ & _ & ->)].
    + congruence.
    + congruence.
    + apply lookup_delete_eq.
Qed.

(** X3: In a table whose paths are the ones built from the account numbers, the
    INSERT of [enroll_user] cannot fail on a constraint: a new account
    number, an image PIL saves, a face in it and a deposit that is a number
    always give a successful enrollment. *)
Theorem enroll_user_succeeds
    (account_no name : string) (initial_deposit : float)
    (image_bytes data : bytes) (s : state) :
  paths_consistent (users s) →
  users s !! account_no = None →
  Image_save (os_path.join ENROLLMENT_DIR (account_no +:+ ".jpg")) image_bytes
  = Returned data →
  extract_faces data = None →
  is_nan initial_deposit = false →
  (enroll_user Image_save extract_faces
     account_no name initial_deposit image_bytes s).1
  = (true, Msg "User successfully enrolled and account created!").
Proof.
  intros Hpaths Hnew Hsave Hface Hnan. unfold enroll_user.
  rewrite Hnew, Hsave, Hface. simpl.
  rewrite insert_user_paths_consistent by auto. reflexivity.
Qed.

End enroll_user_extras.

(** ** update_balance, case by case *)

Lemma alter_set_balance
    (account_no : string) (new_balance : float) (row : user_row)
    (u : gmap string user_row) :
  u !! account_no = Some row →
  alter (set_balance new_balance) account_no u
  = <[account_no := set_balance new_balance row]> u.
Proof.
  intros Hrow. apply map_eq. intros k.
  destruct (decide (k = account_no)) as [->|Hk].
  - rewrite lookup_alter_eq, lookup_insert_eq, Hrow. reflexivity.
  - rewrite lookup_alter_ne, lookup_insert_ne by congruence. reflexivity.
Qed.

Ltac commit_cases row Hrow :=
  unfold update_row_balance;
  match goal with
  | |- context [is_nan ?new_balance] =>
      let Hnan := fresh "Hnan" in
      destruct (is_nan new_balance) eqn:Hnan; simpl; [left; auto|];
      rewrite (alter_set_balance _ _ row) by exact Hrow;
      unfold set_session_balance; simpl;
      destruct (session_user_account (session _)); simpl;
      right; exists row, new_balance; auto 10
  end.

(** Every way out of [update_balance]: nothing changes, or the balance of
    the account, and of the session, is the new one. *)
Lemma update_balance_cases
    (account_no : string) (amount : float) (transaction_type : string)
    (s : state) :
  let '(r, s') := update_balance account_no amount transaction_type s in
  (s' = s
   ∧ ((r = Raised TypeError ∧ users s !! account_no = None)
      ∨ r = Raised IntegrityError
      ∨ ∃ m, r = Returned (false, m)))
  ∨ ∃ row new_balance,
      users s !! account_no = Some row
      ∧ is_nan new_balance = false
      ∧ ((transaction_type = "Withdrawal"
          ∧ (balance row <? amount)%float = false
          ∧ new_balance = (balance row - amount)%float)
         ∨ (transaction_type = "Deposit"
            ∧ new_balance = (balance row + amount)%float))
      ∧ users s' = <[account_no := set_balance new_balance row]> (users s)
      ∧ enrolled_faces s' = enrolled_faces s
      ∧ temp_clean_db s' = temp_clean_db s
      ∧ match session_user_account (session s) with
        | Some ua =>
            r = Returned (true, MsgBalance transaction_type new_balance)
            ∧ session s' = with_session_balance new_balance (session s) ua
        | None => r = Raised TypeError ∧ session s' = session s
        end.
Proof.
  unfold update_balance.
  destruct (users s !! account_no) as [row|] eqn:Hrow; [|left; auto].
  simpl. case_bool_decide as Hw; [|case_bool_decide as Hd].
  - destruct (balance row <? amount)%float eqn:Hlt; [left; eauto|].
    commit_cases row Hrow.
  - commit_cases row Hrow.
  - left. eauto.
Qed.

(** X4: A call of [update_balance], whatever its arguments and its outcome,
    touches nothing but the balance of its own account: the rows of the
    other accounts, the name and the image path of its own, the set of
    accounts and both directories are as before. *)
Theorem update_balance_touches_own_balance_only
    (account_no : string) (amount : float) (transaction_type : string)
    (s : state) :
  let s' := (update_balance account_no amount transaction_type s).2 in
  (∀ k, k ≠ account_no → users s' !! k = users s !! k)
  ∧ (∀ k, is_Some (users s' !! k) ↔ is_Some (users s !! k))
  ∧ (∀ row', users s' !! account_no = Some row' →
             ∃ row, users s !! account_no = Some row
                    ∧ name row' = name row
                    ∧ enrolled_face_path row' = enrolled_face_path row)
  ∧ enrolled_faces s' = enrolled_faces s
  ∧ temp_clean_db s' = temp_clean_db s.
Proof.
  pose proof (update_balance_cases account_no amount transaction_type s)
    as Hcases.
  destruct (update_balance _ _ _ _) as [r s']. simpl.
  destruct Hcases as [(-> & _)|(row & nb & Hrow & _ & _ & Hu & Hf & Ht & _)].
  - repeat split; eauto.
  - rewrite Hu. repeat split; try assumption.
    + intros k Hk. apply lookup_insert_ne. congruence.
    + destruct (decide (k = account_no)) as [->|Hk].
      * rewrite Hrow. eauto.
      * rewrite lookup_insert_ne by congruence. auto.
    + destruct (decide (k = account_no)) as [->|Hk].
      * rewrite lookup_insert_eq. eauto.
      * rewrite lookup_insert_ne by congruence. auto.
    + rewrite lookup_insert_eq. intros row' [= <-]. eauto.
Qed.

(** X5: Whenever [update_balance] returns a failure, whatever the message, the
    whole state is as before the call. *)
Theorem update_balance_failure_changes_nothing
    (account_no : string) (amount : float) (transaction_type : string)
    (s : state) (m : message) :
  (update_balance account_no amount transaction_type s).1
  = Returned (false, m) →
  (update_balance account_no amount transaction_type s).2 = s.
Proof.
  pose proof (update_balance_cases account_no amount transaction_type s)
    as Hcases.
  destruct (update_balance _ _ _ _) as [r s']. simpl. intros ->.
  destruct Hcases as [(-> & _)|(row & nb & _ & _ & _ & _ & _ & _ & Hs)];
    [reflexivity|].
  destruct (session_user_account (session s)); destruct Hs as [Hr _];
    discriminate.
Qed.

(** X6: Called while nobody is logged in, on an existing account and with an
    amount it accepts, [update_balance] first commits the new balance to
    [users] and then raises [TypeError] on the session: the caller sees a
    crash, the table holds the new balance. *)
Theorem update_balance_commits_before_session
    (account_no : string) (amount : float) (transaction_type : string)
    (s : state) (row : user_row) (new_balance : float) :
  users s !! account_no = Some row →
  session_user_account (session s) = None →
  is_nan new_balance = false →
  (transaction_type = "Withdrawal"
   ∧ (balance row <? amount)%float = false
   ∧ new_balance = (balance row - amount)%float)
  ∨ (transaction_type = "Deposit"
     ∧ new_balance = (balance row + amount)%float) →
  update_balance account_no amount transaction_type s
  = (Raised TypeError,
     with_users (<[account_no := set_balance new_balance row]> (users s)) s).
Proof.
  intros Hrow Hnone Hnan Hkind. unfold update_balance. rewrite Hrow. simpl.
  destruct Hkind as [(-> & Hlt & ->)|(-> & ->)]; simpl.
  - rewrite Hlt. unfold update_row_balance, set_session_balance.
    rewrite Hnan. simpl. rewrite Hnone.
    rewrite (alter_set_balance _ _ row) by exact Hrow. reflexivity.
  - unfold update_row_balance, set_session_balance.
    rewrite Hnan. simpl. rewrite Hnone.
    rewrite (alter_set_balance _ _ row) by exact Hrow. reflexivity.
Qed.

(** ** Withdrawing the whole balance *)

Lemma is_finite_spec (x : float) :
  is_finite x = true →
  match Prim2SF x with
  | S754_zero _ | S754_finite _ _ _ => True
  | _ => False
  end.
Proof.
  unfold is_finite, is_infinity, is_nan.
  rewrite !FloatAxioms.eqb_spec, abs_spec.
  destruct (Prim2SF x) as [[]|[]| |[] m e]; simpl; try done;
    vm_compute; discriminate.
Qed.

Lemma ltb_irrefl (x : float) : (x <? x)%float = false.
Proof.
  rewrite FloatAxioms.ltb_spec. unfold SFltb, SFcompare.
  destruct (Prim2SF x) as [[]|[]| |[] m e]; try reflexivity;
    rewrite Z.compare_refl;
    change (Pos.compare_cont Eq m m) with (Pos.compare m m);
    rewrite Pos.compare_refl; reflexivity.
Qed.

Lemma sub_diag (x : float) : is_finite x = true → (x - x)%float = 0%float.
Proof.
  intros Hfin%is_finite_spec. apply Prim2SF_inj.
  rewrite FloatAxioms.sub_spec.
  change (Prim2SF 0) with (S754_zero false).
  destruct (Prim2SF x) as [[]|[]| |sx m e]; try done.
  unfold SF64sub, SFsub. rewrite Z.min_id.
  rewrite Z.sub_diag. reflexivity.
Qed.

(** X7: A withdrawal of exactly the balance, when the balance is finite, is
    accepted and leaves exactly 0.0, in [users] and in the session. *)
Theorem withdraw_whole_balance
    (account_no : string) (s : state) (row : user_row) (ua : user_account) :
  users s !! account_no = Some row →
  session_user_account (session s) = Some ua →
  is_finite (balance row) = true →
  (update_balance account_no (balance row) "Withdrawal" s).1
  = Returned (true, MsgBalance "Withdrawal" 0)
  ∧ users (update_balance account_no (balance row) "Withdrawal" s).2
    !! account_no
    = Some (set_balance 0 row)
  ∧ ua_balance <$>
      session_user_account
        (session (update_balance account_no (balance row) "Withdrawal" s).2)
    = Some 0%float.
Proof.
  intros Hrow Hua Hfin.
  destruct (update_balance_commits account_no (balance row) "Withdrawal"
              s row ua 0 Hrow Hua eq_refl) as (s' & -> & Hu & Hs').
  { left. split; [reflexivity|]. split; [apply ltb_irrefl|].
    symmetry. apply sub_diag, Hfin. }
  simpl. rewrite Hu, lookup_insert_eq, Hs'. auto.
Qed.

(** ** show_login_view, case by case *)

Section show_login_view_cases.

Variable Image_save : string → bytes → outcome bytes.
Variable DeepFace_find :
  bytes → gmap string bytes → outcome (list (list find_row)).

Lemma cleanup_session (s : state) : session (cleanup s) = session s.
Proof.
  unfold cleanup. case_bool_decide; simpl;
    destruct (temp_clean_db s); reflexivity.
Qed.

Ltac finish_login Hclean Hfind image_bytes data :=
  match goal with
  | |- users (cleanup ?s5) = _ ∧ _ =>
      let Hu := fresh "Hu" in
      let He := fresh "He" in
      let Ht := fresh "Ht" in
      let Hs := fresh "Hs" in
      destruct (Hclean s5 eq_refl eq_refl) as (Hu & He & Ht & Hs);
      split; [exact Hu|]; right; exists image_bytes, data;
      rewrite Hfind, He, Ht, Hs; simpl;
      try match goal with
          | H : select_by_face_path _ _ = _ |- _ => rewrite H
          end;
      auto 10
  end.

(** Every way out of [show_login_view]. *)
Lemma show_login_view_cases (captured_image : option bytes) (s : state) :
  let '(r, s') :=
    show_login_view Image_save DeepFace_find captured_image s in
  users s' = users s
  ∧ ((s' = s
      ∧ ((captured_image = None ∧ r = NoImageCaptured)
         ∨ ∃ image_bytes e,
             captured_image = Some image_bytes
             ∧ Image_save PROBE_FILE image_bytes = Raised e
             ∧ r = Uncaught e))
     ∨ ∃ image_bytes data,
         captured_image = Some image_bytes
         ∧ Image_save PROBE_FILE image_bytes = Returned data
         ∧ enrolled_faces s'
           = delete (os_path.basename PROBE_FILE) (enrolled_faces s)
         ∧ temp_clean_db s' = None
         ∧ match DeepFace_find data (searched_directory data s) with
           | Raised e =>
               r = VerificationError e
               ∧ session s' = session (set_debug_match_path None s)
           | Returned ((top :: _) :: _) =>
               match select_by_face_path (best_match_path top) (users s) with
               | Some (account_no, row) =>
                   r = Authenticated (account_of_row account_no row)
                   ∧ session s'
                     = {| logged_in := true;
                          session_user_account :=
                            Some (account_of_row account_no row);
                          debug_match_path := Some (best_match_path top) |}
               | None =>
                   r = AuthenticationFailed (Some (best_match_path top))
                   ∧ session s'
                     = session
                         (set_debug_match_path
                            (Some (best_match_path top)) s)
               end
           | Returned _ =>
               r = AuthenticationFailed None
               ∧ session s' = session (set_debug_match_path None s)
           end).
Proof.
  unfold show_login_view, show_login_view_trace.
  destruct captured_image as [image_bytes|]; [|simpl; auto 10].
  destruct (Image_save PROBE_FILE image_bytes) as [data|e] eqn:Hsave;
    [|simpl; eauto 10].
  unfold verify, searched_directory. simpl.
  rewrite lookup_insert_eq. simpl.
  assert (∀ s5 : state,
            users s5 = users s →
            enrolled_faces s5
            = <[os_path.basename PROBE_FILE := data]> (enrolled_faces s) →
            users (cleanup s5) = users s
            ∧ enrolled_faces (cleanup s5)
              = delete (os_path.basename PROBE_FILE) (enrolled_faces s)
            ∧ temp_clean_db (cleanup s5) = None
            ∧ session (cleanup s5) = session s5) as Hclean.
  { intros s5 Hu He.
    rewrite cleanup_users, cleanup_enrolled_faces, cleanup_temp_clean_db,
      cleanup_session, He, delete_insert_eq. auto. }
  destruct (DeepFace_find data _) as [[|[|top rest] frames]|e] eqn:Hfind;
    simpl; [| |destruct (select_by_face_path (best_match_path top) (users s))
                 as [[account_no row]|] eqn:Hsel; simpl|];
    finish_login Hclean Hfind image_bytes data.
Qed.

End show_login_view_cases.

Section show_login_view_extras.

Variable Image_save : string → bytes → outcome bytes.
Variable DeepFace_find :
  bytes → gmap string bytes → outcome (list (list find_row)).

(** X8: A login that authenticates returns a row of [users]: the account
    number, name, balance and image path it reports are those stored, and
    it leaves that account logged in. *)
Theorem show_login_view_authenticates_stored_account
    (captured_image : option bytes) (s : state) (ua : user_account) :
  (show_login_view Image_save DeepFace_find captured_image s).1
  = Authenticated ua →
  let s' := (show_login_view Image_save DeepFace_find captured_image s).2 in
  users s !! ua_account_no ua
  = Some {| name := ua_name ua; balance := ua_balance ua;
            enrolled_face_path := ua_path ua |}
  ∧ users s' = users s
  ∧ logged_in (session s') = true
  ∧ session_user_account (session s') = Some ua
  ∧ debug_match_path (session s') = Some (ua_path ua).
Proof.
  pose proof (show_login_view_cases Image_save DeepFace_find
                captured_image s) as Hcases.
  destruct (show_login_view _ _ _ _) as [r s']. simpl. intros ->.
  destruct Hcases as (Hu & [(_ & [(_ & Hr)|(? & ? & _ & _ & Hr)])|Hran]);
    [discriminate.. |].
  destruct Hran as (image_bytes & data & _ & _ & _ & _ & Hfind).
  destruct (DeepFace_find data _) as [[|[|top rest] frames]|e];
    try (destruct Hfind as [Hr _]; discriminate).
  destruct (select_by_face_path _ _) as [[account_no row]|] eqn:Hsel;
    [|destruct Hfind as [Hr _]; discriminate].
  destruct Hfind as [[= ->] ->].
  apply select_by_face_path_sound in Hsel as [Hrow Hpath].
  destruct row as [n b p]. simpl in *. subst p. auto.
Qed.

(** X9: A login that does not authenticate changes neither who is logged in
    nor the table [users]. *)
Theorem show_login_view_failure_keeps_login
    (captured_image : option bytes) (s : state) :
  (∀ ua, (show_login_view Image_save DeepFace_find captured_image s).1
         ≠ Authenticated ua) →
  let s' := (show_login_view Image_save DeepFace_find captured_image s).2 in
  users s' = users s
  ∧ logged_in (session s') = logged_in (session s)
  ∧ session_user_account (session s') = session_user_account (session s).
Proof.
  pose proof (show_login_view_cases Image_save DeepFace_find
                captured_image s) as Hcases.
  destruct (show_login_view _ _ _ _) as [r s']. simpl. intros Hfail.
  destruct Hcases as (Hu & [(-> & _)|Hran]); [auto|].
  destruct Hran as (image_bytes & data & _ & _ & _ & _ & Hfind).
  split; [exact Hu|].
  destruct (DeepFace_find data _) as [[|[|top rest] frames]|e];
    try (destruct Hfind as [_ ->]; auto).
  destruct (select_by_face_path _ _) as [[account_no row]|];
    destruct Hfind as [Hr ->]; [|auto].
  exfalso. exact (Hfail _ Hr).
Qed.

(** X10: When the search returns no frame, or a first frame without rows, the
    login fails with no debug path; when it raises, the login reports the
    exception.  In both cases nobody is logged in or out. *)
Theorem show_login_view_without_hit
    (image_bytes data : bytes) (s : state)
    (found : outcome (list (list find_row))) :
  Image_save PROBE_FILE image_bytes = Returned data →
  DeepFace_find data (searched_directory data s) = found →
  match found with
  | Returned ((_ :: _) :: _) => False
  | _ => True
  end →
  show_login_view Image_save DeepFace_find (Some image_bytes) s
  = (match found with
     | Raised e => VerificationError e
     | Returned _ => AuthenticationFailed None
     end,
     cleanup
       (set_debug_match_path None
          (copy_enrolled (makedirs_temp (save_probe data s)))))
  ∧ session
      (show_login_view Image_save DeepFace_find (Some image_bytes) s).2
    = session (set_debug_match_path None s).
Proof.
  intros Hsave Hfind Hnohit.
  unfold show_login_view, show_login_view_trace. rewrite Hsave.
  unfold verify, searched_directory in *. simpl in *.
  rewrite lookup_insert_eq. simpl. rewrite Hfind.
  destruct found as [[|[|top rest] frames]|e]; simpl;
    try (rewrite cleanup_session; auto).
  destruct Hnohit.
Qed.

(** X11: A login removes the file of the reserved probe name from the enrollment
    directory even when it was an enrolled template: the account
    "temp_auth_file" keeps its row and loses its image. *)
Theorem show_login_view_removes_reserved_template
    (image_bytes data : bytes) (s : state) :
  Image_save PROBE_FILE image_bytes = Returned data →
  is_Some (users s !! "temp_auth_file") →
  let s' :=
    (show_login_view Image_save DeepFace_find (Some image_bytes) s).2 in
  is_Some (users s' !! "temp_auth_file")
  ∧ enrolled_faces s' !! ("temp_auth_file" +:+ ".jpg") = None.
Proof.
  intros Hsave Hrow.
  pose proof (show_login_view_cases Image_save DeepFace_find
                (Some image_bytes) s) as Hcases.
  destruct (show_login_view _ _ _ _) as [r s']. simpl.
  destruct Hcases as (Hu & [(_ & [(Hnone & _)|Hraised])|Hran]).
  - discriminate.
  - destruct Hraised as (? & e & [= <-] & Hsave' & _). congruence.
  - destruct Hran as (? & ? & _ & _ & He & _).
    rewrite Hu, He. split; [exact Hrow|]. apply lookup_delete_eq.
Qed.

(** X12: Enrollment and login agree on the path: in a table whose paths are the
    ones built from the account numbers, when the closest image found is the
    copy of the image of an enrolled account whose number holds no
    separator, the login authenticates that account, with its stored name
    and balance. *)
Theorem show_login_view_finds_enrolled_account
    (image_bytes data : bytes) (s : state) (account_no : string)
    (row : user_row) (d : float) (rest : list find_row)
    (frames : list (list find_row)) :
  paths_consistent (users s) →
  users s !! account_no = Some row →
  has_sep account_no = false →
  Image_save PROBE_FILE image_bytes = Returned data →
  DeepFace_find data (searched_directory data s)
  = Returned
      (({| identity := os_path.join TEMP_DB_DIR (account_no +:+ ".jpg");
           distance := d |} :: rest) :: frames) →
  (show_login_view Image_save DeepFace_find (Some image_bytes) s).1
  = Authenticated (account_of_row account_no row)
  ∧ session_user_account
      (session
         (show_login_view Image_save DeepFace_find (Some image_bytes) s).2)
    = Some (account_of_row account_no row).
Proof.
  intros Hpaths Hrow Hsep Hsave Hfind.
  pose proof (show_login_view_cases Image_save DeepFace_find
                (Some image_bytes) s) as Hcases.
  destruct (show_login_view _ _ _ _) as [r s']. simpl.
  destruct Hcases as (Hu & [(_ & [(Hnone & _)|Hraised])|Hran]).
  - discriminate.
  - destruct Hraised as (? & e & [= <-] & Hsave' & _). congruence.
  - destruct Hran as (? & data' & [= <-] & Hsave' & _ & _ & Hres).
    assert (data' = data) as -> by congruence.
    rewrite Hfind, best_match_path_of_copy in Hres by exact Hsep.
    rewrite <- (Hpaths account_no row Hrow) in Hres.
    rewrite (select_by_face_path_complete _ account_no row Hpaths Hrow)
      in Hres.
    destruct Hres as [-> ->]. auto.
Qed.

End show_login_view_extras.

(** ** The directory a login searches *)

Lemma elem_of_listdir (d : gmap string bytes) (f : string) :
  f ∈ listdir d ↔ is_Some (d !! f).
Proof.
  unfold listdir. rewrite list_elem_of_fmap. split.
  - intros ([k x] & -> & Hin). apply elem_of_map_to_list in Hin. eauto.
  - intros [x Hx]. exists (f, x). split; [reflexivity|].
    apply elem_of_map_to_list, Hx.
Qed.

(** What the copy loop leaves under a name: the source file if the name is
    in the list and the source has it, what was there otherwise. *)
Lemma foldl_copy_to_temp_lookup_full
    (src : gmap string bytes) (files : list string) (f : string) :
  ∀ tmp,
    foldl (copy_to_temp src) tmp files !! f
    = match (if decide (f ∈ files) then src !! f else None) with
      | Some data => Some data
      | None => tmp !! f
      end.
Proof.
  induction files as [|file_name files IH]; intros tmp; cbn [foldl].
  - destruct (decide (f ∈ [])) as [Hin|_]; [|reflexivity].
    by apply elem_of_nil in Hin.
  - rewrite IH.
    assert (src !! f = None →
            copy_to_temp src tmp file_name !! f = tmp !! f) as Hnone.
    { intros Hf. unfold copy_to_temp.
      destruct (src !! file_name) as [data|] eqn:Hsrc; [|reflexivity].
      apply lookup_insert_ne. congruence. }
    destruct (decide (f ∈ file_name :: files)) as [Hcons|Hcons],
             (decide (f ∈ files)) as [Hin|Hnotin].
    + destruct (src !! f) eqn:Hf; [reflexivity | by apply Hnone].
    + apply elem_of_cons in Hcons as [->|?]; [|contradiction].
      unfold copy_to_temp.
      destruct (src !! file_name) as [data|] eqn:Hsrc;
        [apply lookup_insert_eq | reflexivity].
    + exfalso. apply Hcons, list_elem_of_further, Hin.
    + unfold copy_to_temp. destruct (src !! file_name); [|reflexivity].
      apply lookup_insert_ne. intros ->. apply Hcons, list_elem_of_here.
Qed.

(** X13: The directory a login searches holds the enrolled images, without a
    file of the reserved probe name, over whatever a temporary directory
    left behind held. *)
Theorem searched_directory_is_enrollment_copy (data : bytes) (s : state) :
  searched_directory data s
  = delete (os_path.basename PROBE_FILE) (enrolled_faces s)
    ∪ default ∅ (temp_clean_db s).
Proof.
  apply map_eq. intros f.
  unfold searched_directory, copy_enrolled. simpl.
  rewrite foldl_copy_to_temp_lookup_full, lookup_union.
  unfold enrolled_files. simpl.
  destruct (decide (f = os_path.basename PROBE_FILE)) as [->|Hne].
  - rewrite decide_False, lookup_delete_eq.
    + destruct (default ∅ (temp_clean_db s) !! _); reflexivity.
    + intros [Hne _]%list_elem_of_filter. apply Hne. reflexivity.
  - rewrite lookup_delete_ne by congruence.
    destruct (enrolled_faces s !! f) as [x|] eqn:Hf.
    + rewrite decide_True.
      * rewrite lookup_insert_ne, Hf by congruence.
        destruct (default ∅ (temp_clean_db s) !! f); reflexivity.
      * apply list_elem_of_filter. split; [exact Hne|].
        apply elem_of_listdir. rewrite lookup_insert_ne, Hf by congruence.
        eauto.
    + assert ((if decide (f ∈ filter (λ f0, f0 ≠ os_path.basename PROBE_FILE)
                              (listdir
                                 (<[os_path.basename PROBE_FILE := data]>
                                    (enrolled_faces s))))
               then <[os_path.basename PROBE_FILE := data]>
                      (enrolled_faces s) !! f
               else None) = None) as ->.
      { destruct (decide _); [|reflexivity].
        rewrite lookup_insert_ne, Hf by congruence. reflexivity. }
      destruct (default ∅ (temp_clean_db s) !! f); reflexivity.
Qed.

(** An account number of the form is not the reserved name of the probe. *)
Lemma short_is_not_probe (a : string) :
  (String.length a ≤ 10)%nat → a +:+ ".jpg" ≠ os_path.basename PROBE_FILE.
Proof.
  intros Hlen Heq. apply (f_equal String.length) in Heq.
  rewrite length_append in Heq.
  change (String.length (os_path.basename PROBE_FILE)) with 18%nat in Heq.
  change (String.length ".jpg") with 4%nat in Heq. lia.
Qed.

(** ** Invariants of the stores, for any sequence of requests *)

Section stores_invariant.

Variable Image_save : string → bytes → outcome bytes.
Variable extract_faces : bytes → option exn.
Variable DeepFace_find :
  bytes → gmap string bytes → outcome (list (list find_row)).

Lemma enroll_user_stores_consistent
    (account_no name : string) (initial_deposit : float)
    (image_bytes : bytes) (s : state) :
  stores_consistent s →
  stores_consistent
    (enroll_user Image_save extract_faces
       account_no name initial_deposit image_bytes s).2.
Proof.
  intros (Htemp & Hpaths & Horphan).
  pose proof (enroll_user_cases Image_save extract_faces
                account_no name initial_deposit image_bytes s) as Hcases.
  destruct (enroll_user _ _ _ _ _ _ _) as [[success m] s']. simpl in *.
  destruct Hcases as (Ht & _ & [(_ & Hu & Hfiles)|Hok]).
  - split; [congruence|]. split; [rewrite Hu; exact Hpaths|].
    intros f Hf. rewrite Hu.
    destruct Hfiles as [(_ & He)|(_ & _ & He)]; rewrite He in Hf.
    + apply Horphan, Hf.
    + apply Horphan. destruct (decide (f = account_no +:+ ".jpg")) as [->|Hne].
      * rewrite lookup_delete_eq in Hf. by destruct Hf.
      * rewrite lookup_delete_ne in Hf by congruence. exact Hf.
  - destruct Hok as (_ & Hnew & _ & data & _ & _ & Hu & He).
    split; [congruence|]. split.
    + rewrite Hu. intros a row.
      destruct (decide (a = account_no)) as [->|Hne].
      * rewrite lookup_insert_eq. intros [= <-]. reflexivity.
      * rewrite lookup_insert_ne by congruence. apply Hpaths.
    + intros f Hf. rewrite He in Hf. rewrite Hu.
      destruct (decide (f = account_no +:+ ".jpg")) as [->|Hne].
      * exists account_no. rewrite lookup_insert_eq. eauto.
      * rewrite lookup_insert_ne in Hf by congruence.
        destruct (Horphan f Hf) as (a & Ha & ->). exists a.
        split; [|reflexivity].
        destruct (decide (a = account_no)) as [->|Hne'].
        -- rewrite lookup_insert_eq. eauto.
        -- rewrite lookup_insert_ne by congruence. exact Ha.
Qed.

Lemma show_login_view_stores_consistent
    (captured_image : option bytes) (s : state) :
  stores_consistent s →
  stores_consistent
    (show_login_view Image_save DeepFace_find captured_image s).2.
Proof.
  intros (Htemp & Hpaths & Horphan).
  pose proof (show_login_view_cases Image_save DeepFace_find
                captured_image s) as Hcases.
  destruct (show_login_view _ _ _ _) as [r s']. simpl.
  destruct Hcases as (Hu & [(-> & _)|Hran]); [repeat split; assumption|].
  destruct Hran as (? & ? & _ & _ & He & Ht & _).
  split; [exact Ht|]. split; [rewrite Hu; exact Hpaths|].
  intros f Hf. rewrite Hu. rewrite He in Hf. apply Horphan.
  destruct (decide (f = os_path.basename PROBE_FILE)) as [->|Hne].
  - rewrite lookup_delete_eq in Hf. by destruct Hf.
  - rewrite lookup_delete_ne in Hf by congruence. exact Hf.
Qed.

Lemma update_balance_stores_consistent
    (account_no : string) (amount : float) (transaction_type : string)
    (s : state) :
  stores_consistent s →
  stores_consistent (update_balance account_no amount transaction_type s).2.
Proof.
  intros (Htemp & Hpaths & Horphan).
  pose proof (update_balance_cases account_no amount transaction_type s)
    as Hcases.
  destruct (update_balance _ _ _ _) as [r s']. simpl.
  destruct Hcases as [(-> & _)|(row & nb & Hrow & _ & _ & Hu & He & Ht & _)];
    [repeat split; assumption|].
  split; [congruence|]. split.
  - rewrite Hu. intros a row'.
    destruct (decide (a = account_no)) as [->|Hne].
    + rewrite lookup_insert_eq. intros [= <-]. simpl. apply Hpaths, Hrow.
    + rewrite lookup_insert_ne by congruence. apply Hpaths.
  - intros f Hf. rewrite He in Hf. rewrite Hu.
    destruct (Horphan f Hf) as (a & Ha & ->). exists a.
    split; [|reflexivity].
    destruct (decide (a = account_no)) as [->|Hne].
    + rewrite lookup_insert_eq. eauto.
    + rewrite lookup_insert_ne by congruence. exact Ha.
Qed.

Lemma reachable_stores_consistent (s : state) :
  reachable Image_save extract_faces DeepFace_find any_request s →
  stores_consistent s.
Proof.
  induction 1 as [|s r _ IH _].
  - repeat split.
    + intros a row. simpl. rewrite lookup_empty. discriminate.
    + intros f. simpl. rewrite lookup_empty. by intros [? ?].
  - destruct r; simpl.
    + apply enroll_user_stores_consistent, IH.
    + apply show_login_view_stores_consistent, IH.
    + apply update_balance_stores_consistent, IH.
Qed.

(** X14: In every state reached by enrollments, logins and transactions, called
    with any arguments, the path stored in a row is the one built from its
    account number, so no two rows share a path. *)
Theorem reachable_paths_consistent (s : state) :
  reachable Image_save extract_faces DeepFace_find any_request s →
  paths_consistent (users s)
  ∧ ∀ a b row_a row_b,
      users s !! a = Some row_a → users s !! b = Some row_b →
      enrolled_face_path row_a = enrolled_face_path row_b → a = b.
Proof.
  intros (_ & Hpaths & _)%reachable_stores_consistent.
  split; [exact Hpaths|].
  intros a b row_a row_b Ha Hb Heq. apply stored_path_inj.
  rewrite <- (Hpaths a row_a Ha), <- (Hpaths b row_b Hb). exact Heq.
Qed.

Lemma reachable_weaken (ok ok' : request → Prop) (s : state) :
  (∀ r, ok r → ok' r) →
  reachable Image_save extract_faces DeepFace_find ok s →
  reachable Image_save extract_faces DeepFace_find ok' s.
Proof.
  intros Hok. induction 1 as [|s r _ IH Hr].
  - apply reachable_init.
  - apply reachable_step; auto.
Qed.

(** X15: In every state reached by enrollments, logins and transactions, the
    enrollments under account numbers without path separator and all else
    called with any arguments, nothing is left behind: there is no
    temporary directory, and every file of the enrollment directory is the
    image of an account of [users]. *)
Theorem reachable_no_leftover_files (s : state) :
  reachable Image_save extract_faces DeepFace_find plain_enrollment s →
  temp_clean_db s = None ∧ no_orphan_files s.
Proof.
  intros Hs.
  apply (reachable_weaken _ any_request) in Hs; [|intros r _; exact I].
  apply reachable_stores_consistent in Hs as (Htemp & _ & Horphan). auto.
Qed.

(** *** One image for every account *)

Lemma enroll_user_templates_consistent
    (account_no name : string) (initial_deposit : float)
    (image_bytes : bytes) (s : state) :
  (String.length account_no ≤ 10)%nat →
  templates_consistent s →
  templates_consistent
    (enroll_user Image_save extract_faces
       account_no name initial_deposit image_bytes s).2.
Proof.
  intros Hlen (Hstores & Htemplates & Hshort).
  split; [apply enroll_user_stores_consistent, Hstores|].
  pose proof (enroll_user_cases Image_save extract_faces
                account_no name initial_deposit image_bytes s) as Hcases.
  destruct (enroll_user _ _ _ _ _ _ _) as [[success m] s']. simpl in *.
  unfold accounts_have_templates, account_numbers_short in *.
  destruct Hcases as (_ & _ & [(_ & Hu & Hfiles)|Hok]).
  - rewrite Hu. split; [|auto].
    intros a Ha.
    destruct Hfiles as [(_ & ->)|(Hnew & _ & ->)]; [auto|].
    rewrite lookup_delete_ne; [auto|].
    intros Heq%append_inj_l. subst a. rewrite Hnew in Ha. by destruct Ha.
  - destruct Hok as (_ & Hnew & _ & data & _ & _ & Hu & He).
    rewrite Hu, He. split.
    + intros a Ha. destruct (decide (a = account_no)) as [->|Hne].
      * rewrite lookup_insert_eq. eauto.
      * rewrite lookup_insert_ne in Ha by congruence.
        rewrite lookup_insert_ne; [auto|].
        intros Heq%append_inj_l. congruence.
    + intros a Ha. destruct (decide (a = account_no)) as [->|Hne];
        [exact Hlen|].
      rewrite lookup_insert_ne in Ha by congruence. auto.
Qed.

Lemma show_login_view_templates_consistent
    (captured_image : option bytes) (s : state) :
  templates_consistent s →
  templates_consistent
    (show_login_view Image_save DeepFace_find captured_image s).2.
Proof.
  intros (Hstores & Htemplates & Hshort).
  split; [apply show_login_view_stores_consistent, Hstores|].
  pose proof (show_login_view_cases Image_save DeepFace_find
                captured_image s) as Hcases.
  destruct (show_login_view _ _ _ _) as [r s']. simpl in *.
  destruct Hcases as (Hu & [(-> & _)|Hran]); [auto|].
  destruct Hran as (image_bytes & data & _ & _ & He & _ & _).
  unfold accounts_have_templates, account_numbers_short in *.
  rewrite Hu, He. split; [|exact Hshort].
  intros a Ha. rewrite lookup_delete_ne; [auto|].
  intros Heq. symmetry in Heq. revert Heq. apply short_is_not_probe. auto.
Qed.

Lemma update_balance_templates_consistent
    (account_no : string) (amount : float) (transaction_type : string)
    (s : state) :
  templates_consistent s →
  templates_consistent
    (update_balance account_no amount transaction_type s).2.
Proof.
  intros (Hstores & Htemplates & Hshort).
  split; [apply update_balance_stores_consistent, Hstores|].
  pose proof (update_balance_cases account_no amount transaction_type s)
    as Hcases.
  destruct (update_balance _ _ _ _) as [r s']. simpl in *.
  destruct Hcases as [(-> & _)|Hnew]; [auto|].
  destruct Hnew as (row & nb & Hrow & _ & _ & Hu & He & _ & _).
  unfold accounts_have_templates, account_numbers_short in *.
  rewrite Hu, He.
  assert (∀ a, is_Some (<[account_no := set_balance nb row]> (users s) !! a)
               → is_Some (users s !! a)) as Hdom.
  { intros a. destruct (decide (a = account_no)) as [->|Hne].
    - rewrite Hrow. eauto.
    - rewrite lookup_insert_ne by congruence. auto. }
  split; auto.
Qed.

Lemma reachable_templates_consistent (s : state) :
  reachable Image_save extract_faces DeepFace_find short_enrollment s →
  templates_consistent s.
Proof.
  induction 1 as [|s r _ IH Hr].
  - repeat split; try reflexivity; intros a; simpl; rewrite lookup_empty;
      (discriminate || by intros [? ?]).
  - destruct r; simpl in *.
    + apply enroll_user_templates_consistent; [apply Hr|exact IH].
    + apply show_login_view_templates_consistent, IH.
    + apply update_balance_templates_consistent, IH.
Qed.

(** X17: The accounts and the enrolled images correspond one to one: in every
    state reached by enrollments, logins and transactions, the enrollments
    under account numbers without path separator and within the ten
    characters of the form (so none is the reserved name of the probe) and
    all else called with any arguments, the files of the enrollment
    directory are exactly the images of the accounts of [users]. *)
Theorem reachable_one_image_per_account (s : state) :
  reachable Image_save extract_faces DeepFace_find short_enrollment s →
  ∀ f, is_Some (enrolled_faces s !! f)
       ↔ ∃ a, is_Some (users s !! a) ∧ f = a +:+ ".jpg".
Proof.
  intros ((_ & _ & Horphan) & Htemplates & _)%reachable_templates_consistent f.
  split; [apply Horphan|]. intros (a & Ha & ->). apply Htemplates, Ha.
Qed.

End stores_invariant.

(** ** Runs of [main] *)

Section main_properties.

Variable Image_save : string → bytes → outcome bytes.
Variable extract_faces : bytes → option exn.
Variable DeepFace_find :
  bytes → gmap string bytes → outcome (list (list find_row)).

(** What a run of [main] does to the state: nothing, or what one handler
    does, or a log out. *)
Lemma main_cases (w : widgets) (s : state) :
  let s' := (main Image_save extract_faces DeepFace_find w s).2 in
  s' = s
  ∨ (∃ image_bytes,
       s' = (enroll_user Image_save extract_faces
               (new_account_no w) (new_name w) (initial_deposit w)
               image_bytes s).2)
  ∨ s' = (show_login_view Image_save DeepFace_find (captured_image w) s).2
  ∨ (∃ ua,
       session_user_account (session s) = Some ua
       ∧ s' = (update_balance (ua_account_no ua) (amount w)
                 (transaction_type w) s).2)
  ∨ s' = logged_out s.
Proof.
  unfold main, show_enrollment_view, show_transaction_view.
  destruct (choice w).
  - destruct (logged_in (session s)).
    + destruct (session_user_account (session s)) as [ua|]; [|auto].
      destruct (_ || _).
      * destruct (complete_button w); [|auto].
        right. right. right. left. exists ua. split; [reflexivity|].
        destruct (update_balance _ _ _ _) as [[[success m]|e] s'];
          reflexivity.
      * repeat case_bool_decide; try destruct (confirm_log_out_button w);
          simpl; auto 10.
    + destruct (auth_button_pressed w); [|auto].
      right. right. left.
      destruct (show_login_view _ _ _ _). reflexivity.
  - destruct (submitted w); [|auto].
    destruct (face_capture w) as [image_bytes|]; [|auto].
    destruct (_ || _); [auto|].
    right. left. exists image_bytes.
    destruct (enroll_user _ _ _ _ _ _ _) as [[success m] s']. reflexivity.
Qed.

Lemma enroll_user_ui_consistent
    (account_no name : string) (initial_deposit : float)
    (image_bytes : bytes) (s : state) :
  (String.length account_no ≤ 10)%nat →
  ui_consistent s →
  ui_consistent
    (enroll_user Image_save extract_faces
       account_no name initial_deposit image_bytes s).2.
Proof.
  intros Hlen (Hstores & Htemplates & Hshort & Hsession).
  split; [apply enroll_user_stores_consistent, Hstores|].
  pose proof (enroll_user_cases Image_save extract_faces
                account_no name initial_deposit image_bytes s) as Hcases.
  destruct (enroll_user _ _ _ _ _ _ _) as [[success m] s']. simpl in *.
  unfold accounts_have_templates, account_numbers_short,
    session_mirrors_users in *.
  destruct Hcases as (_ & Hs & [(_ & Hu & Hfiles)|Hok]); rewrite Hs.
  - rewrite Hu. split; [|auto].
    intros a Ha.
    destruct Hfiles as [(_ & ->)|(Hnew & _ & ->)]; [auto|].
    rewrite lookup_delete_ne; [auto|].
    intros Heq%append_inj_l. subst a. rewrite Hnew in Ha. by destruct Ha.
  - destruct Hok as (_ & Hnew & _ & data & _ & _ & Hu & He).
    rewrite Hu, He. repeat split.
    + intros a Ha. destruct (decide (a = account_no)) as [->|Hne].
      * rewrite lookup_insert_eq. eauto.
      * rewrite lookup_insert_ne in Ha by congruence.
        rewrite lookup_insert_ne; [auto|].
        intros Heq%append_inj_l. congruence.
    + intros a Ha. destruct (decide (a = account_no)) as [->|Hne];
        [exact Hlen|].
      rewrite lookup_insert_ne in Ha by congruence. auto.
    + destruct (session_user_account (session s)) as [ua|]; [|exact Hsession].
      destruct Hsession as [Hin Hrow]. split; [exact Hin|].
      rewrite lookup_insert_ne; [exact Hrow|]. congruence.
Qed.

Lemma show_login_view_ui_consistent
    (captured_image : option bytes) (s : state) :
  ui_consistent s →
  ui_consistent
    (show_login_view Image_save DeepFace_find captured_image s).2.
Proof.
  intros (Hstores & Htemplates & Hshort & Hsession).
  split; [apply show_login_view_stores_consistent, Hstores|].
  pose proof (show_login_view_cases Image_save DeepFace_find
                captured_image s) as Hcases.
  destruct (show_login_view _ _ _ _) as [r s']. simpl in *.
  destruct Hcases as (Hu & [(-> & _)|Hran]); [auto|].
  destruct Hran as (image_bytes & data & _ & _ & He & _ & Hfind).
  unfold accounts_have_templates, account_numbers_short,
    session_mirrors_users in *.
  rewrite Hu, He. repeat split.
  - intros a Ha. rewrite lookup_delete_ne; [auto|].
    intros Heq. symmetry in Heq. revert Heq. apply short_is_not_probe. auto.
  - exact Hshort.
  - destruct (DeepFace_find data _) as [[|[|top rest] frames]|e];
      try (destruct Hfind as [_ ->]; exact Hsession).
    destruct (select_by_face_path _ _) as [[account_no row]|] eqn:Hsel;
      destruct Hfind as [_ ->]; [|exact Hsession].
    apply select_by_face_path_sound in Hsel as [Hrow _].
    simpl. split; [reflexivity|]. destruct row. exact Hrow.
Qed.

Lemma update_balance_ui_consistent
    (ua : user_account) (amount : float) (transaction_type : string)
    (s : state) :
  session_user_account (session s) = Some ua →
  ui_consistent s →
  ui_consistent
    (update_balance (ua_account_no ua) amount transaction_type s).2.
Proof.
  intros Hua (Hstores & Htemplates & Hshort & Hsession).
  split; [apply update_balance_stores_consistent, Hstores|].
  pose proof (update_balance_cases (ua_account_no ua) amount
                transaction_type s) as Hcases.
  destruct (update_balance _ _ _ _) as [r s']. simpl in *.
  destruct Hcases as [(-> & _)|Hnew]; [auto|].
  destruct Hnew as (row & nb & Hrow & _ & _ & Hu & He & _ & Hs).
  unfold accounts_have_templates, account_numbers_short,
    session_mirrors_users in *.
  rewrite Hua in Hs, Hsession. destruct Hs as [_ ->].
  destruct Hsession as [Hin Hmirror]. rewrite Hu, He.
  assert (∀ a, is_Some (<[ua_account_no ua := set_balance nb row]> (users s)
                          !! a) → is_Some (users s !! a)) as Hdom.
  { intros a. destruct (decide (a = ua_account_no ua)) as [->|Hne].
    - rewrite Hrow. eauto.
    - rewrite lookup_insert_ne by congruence. auto. }
  repeat split; auto.
  simpl. rewrite lookup_insert_eq. rewrite Hrow in Hmirror.
  injection Hmirror as ->. reflexivity.
Qed.

Lemma logged_out_ui_consistent (s : state) :
  ui_consistent s → ui_consistent (logged_out s).
Proof.
  intros (Hstores & Htemplates & Hshort & _). repeat split; try apply Hstores;
    assumption.
Qed.

Lemma main_reachable_ui_consistent (s : state) :
  main_reachable Image_save extract_faces DeepFace_find s →
  ui_consistent s.
Proof.
  induction 1 as [|w s _ IH (Hlen & _)].
  - repeat split; try reflexivity; intros a; simpl; rewrite lookup_empty;
      (discriminate || by intros [? ?]).
  - destruct (main_cases w s)
      as [-> | [(image_bytes & ->) | [-> | [(ua & Hua & ->) | ->]]]].
    + exact IH.
    + apply enroll_user_ui_consistent; assumption.
    + apply show_login_view_ui_consistent, IH.
    + apply update_balance_ui_consistent; assumption.
    + apply logged_out_ui_consistent, IH.
Qed.

(** X18: Through [main] the [TypeError]s of [update_balance] and of the
    transaction view cannot happen: in every state reached by runs of
    [main], the transaction view never crashes on a missing account or a
    missing session; the one crash it has left is the [IntegrityError] of a
    NaN balance.  (An exception of PIL on the probe is reported by the login
    attempt.) *)
Theorem main_never_raises_TypeError (w : widgets) (s : state) :
  main_reachable Image_save extract_faces DeepFace_find s →
  match (main Image_save extract_faces DeepFace_find w s).1 with
  | Crash e => e = IntegrityError
  | _ => True
  end.
Proof.
  intros (_ & _ & _ & Hsession)%main_reachable_ui_consistent.
  unfold session_mirrors_users in Hsession.
  unfold main, show_enrollment_view, show_transaction_view.
  destruct (choice w).
  - destruct (logged_in (session s)) eqn:Hin.
    + destruct (session_user_account (session s)) as [ua|] eqn:Hua;
        [|congruence].
      destruct Hsession as [_ Hrow].
      destruct (_ || _).
      * destruct (complete_button w); [|exact I].
        pose proof (update_balance_cases (ua_account_no ua) (amount w)
                      (transaction_type w) s) as Hcases.
        destruct (update_balance _ _ _ _) as [[[success m]|e] s'];
          [exact I|].
        simpl. rewrite Hua in Hcases.
        destruct Hcases
          as [(_ & [(_ & Hnone)|[Hr|(m & Hr)]])
             |(? & ? & _ & _ & _ & _ & _ & _ & Hr & _)];
          congruence.
      * repeat case_bool_decide; try destruct (confirm_log_out_button w);
          exact I.
    + destruct (auth_button_pressed w); [|exact I].
      destruct (show_login_view _ _ _ _). exact I.
  - destruct (submitted w); [|exact I].
    destruct (face_capture w); [|exact I].
    destruct (_ || _); [exact I|].
    destruct (enroll_user _ _ _ _ _ _ _) as [[success m] s']. exact I.
Qed.

(** *** Several browser sessions on the same table *)

(** A run of [main] keeps every account, with its name and its image
    path. *)
Lemma main_keeps_accounts (w : widgets) (s : state) (a : string)
    (row : user_row) :
  users s !! a = Some row →
  ∃ row', users (main Image_save extract_faces DeepFace_find w s).2 !! a
          = Some row'
          ∧ name row' = name row
          ∧ enrolled_face_path row' = enrolled_face_path row.
Proof.
  intros Hrow.
  destruct (main_cases w s)
    as [-> | [(image_bytes & ->) | [-> | [(ua & _ & ->) | ->]]]].
  - eauto.
  - pose proof (enroll_user_cases Image_save extract_faces
                  (new_account_no w) (new_name w) (initial_deposit w)
                  image_bytes s) as Hcases.
    destruct (enroll_user _ _ _ _ _ _ _) as [[success m] s']. simpl in *.
    destruct Hcases as (_ & _ & [(_ & -> & _)|Hok]); [eauto|].
    destruct Hok as (_ & Hnew & _ & data & _ & _ & -> & _).
    rewrite lookup_insert_ne by congruence. eauto.
  - rewrite show_login_view_users. eauto.
  - pose proof (update_balance_cases (ua_account_no ua) (amount w)
                  (transaction_type w) s) as Hcases.
    destruct (update_balance _ _ _ _) as [r s']. simpl in *.
    destruct Hcases as [(-> & _)|(row0 & nb & Hrow0 & _ & _ & -> & _)];
      [eauto|].
    destruct (decide (a = ua_account_no ua)) as [->|Hne].
    + rewrite lookup_insert_eq. rewrite Hrow in Hrow0.
      injection Hrow0 as <-. eauto.
    + rewrite lookup_insert_ne by congruence. eauto.
  - eauto.
Qed.

(** What the other sessions hold stays in step with the table. *)
Lemma main_keeps_other_sessions (w : widgets) (s : state)
    (ss : session_state) :
  session_tracks_account (users s) ss →
  session_tracks_account
    (users (main Image_save extract_faces DeepFace_find w s).2) ss.
Proof.
  unfold session_tracks_account.
  destruct (session_user_account ss) as [ua|]; [|auto].
  intros (Hin & row & Hrow & Hname & Hpath). split; [exact Hin|].
  destruct (main_keeps_accounts w s _ _ Hrow) as (row' & Hrow' & Hn & Hp).
  exists row'. split; [exact Hrow'|]. split; congruence.
Qed.

(** What the session of the run holds stays in step with the table. *)
Lemma main_keeps_own_session (w : widgets) (s : state) :
  session_tracks_account (users s) (session s) →
  let s' := (main Image_save extract_faces DeepFace_find w s).2 in
  session_tracks_account (users s') (session s').
Proof.
  intros Hown.
  pose proof (main_keeps_other_sessions w s _ Hown) as Hframe.
  destruct (main_cases w s)
    as [Hs | [(image_bytes & Hs) | [Hs | [(ua & Hua & Hs) | Hs]]]];
    simpl; rewrite Hs in *; clear Hs.
  - exact Hown.
  - pose proof (enroll_user_cases Image_save extract_faces
                  (new_account_no w) (new_name w) (initial_deposit w)
                  image_bytes s) as Hcases.
    destruct (enroll_user _ _ _ _ _ _ _) as [[success m] s']. simpl in *.
    destruct Hcases as (_ & -> & _). exact Hframe.
  - pose proof (show_login_view_cases Image_save DeepFace_find
                  (captured_image w) s) as Hcases.
    destruct (show_login_view _ _ _ _) as [r s']. simpl in *.
    destruct Hcases as (Hu & [(-> & _)|Hran]); [exact Hown|].
    destruct Hran as (image_bytes & data & _ & _ & _ & _ & Hfind).
    destruct (DeepFace_find data _) as [[|[|top rest] frames]|e];
      try (destruct Hfind as [_ Hs]; unfold session_tracks_account in *;
           rewrite Hs; exact Hframe).
    destruct (select_by_face_path _ _) as [[account_no row]|] eqn:Hsel;
      destruct Hfind as [_ Hs]; unfold session_tracks_account in *;
      rewrite Hs; [|exact Hframe].
    apply select_by_face_path_sound in Hsel as [Hrow _].
    simpl. split; [reflexivity|]. rewrite Hu. eauto.
  - pose proof (update_balance_cases (ua_account_no ua) (amount w)
                  (transaction_type w) s) as Hcases.
    destruct (update_balance _ _ _ _) as [r s']. simpl in *.
    destruct Hcases as [(-> & _)|Hnew]; [exact Hown|].
    destruct Hnew as (row & nb & _ & _ & _ & _ & _ & _ & Hs).
    rewrite Hua in Hs. destruct Hs as [_ Hs].
    unfold session_tracks_account in *. rewrite Hs. simpl.
    rewrite Hua in Hframe. exact Hframe.
  - reflexivity.
Qed.

(** The invariant of the sessions, by induction on the history of the
    server. *)
Lemma served_sessions_consistent (sv : server) :
  served Image_save extract_faces DeepFace_find sv →
  ∀ i ss, sessions sv !! i = Some ss →
          session_tracks_account (users (stores sv)) ss.
Proof.
  induction 1 as [|sv _ IH|i w sv _ IH _]; intros j ss' Hj.
  - simpl in Hj. rewrite lookup_nil in Hj. discriminate.
  - simpl in *. apply lookup_app_Some in Hj as [Hj|[_ Hj]]; [eauto|].
    apply list_lookup_singleton_Some in Hj as [_ <-]. reflexivity.
  - unfold run_session in *.
    destruct (sessions sv !! i) as [ss|] eqn:Hi; [|eauto].
    pose proof (main_keeps_own_session w (with_session ss (stores sv)))
      as Hown.
    pose proof (main_keeps_other_sessions w (with_session ss (stores sv)))
      as Hother.
    destruct (main _ _ _ _ _) as [r s']. simpl in *.
    destruct (decide (i = j)) as [->|Hne].
    + rewrite list_lookup_insert_eq in Hj by (eapply lookup_lt_Some, Hi).
      injection Hj as <-. apply Hown. eauto.
    + rewrite list_lookup_insert_ne in Hj by exact Hne. eauto.
Qed.

(** X16: With any number of browser sessions on the same table, every
    session stays in step with the table in all but the balance: in every
    server reached by browsers connecting and runs of [main], a session
    holds an account exactly when it is logged in, and that account is a
    row of [users] with the same name and image path. *)
Theorem served_session_tracks_account
    (sv : server) (i : nat) (ss : session_state) :
  served Image_save extract_faces DeepFace_find sv →
  sessions sv !! i = Some ss →
  match session_user_account ss with
  | Some ua =>
      logged_in ss = true
      ∧ ∃ row, users (stores sv) !! ua_account_no ua = Some row
               ∧ name row = ua_name ua
               ∧ enrolled_face_path row = ua_path ua
  | None => logged_in ss = false
  end.
Proof. intros Hsv Hi. exact (served_sessions_consistent sv Hsv i ss Hi). Qed.

(** X19: A login that authenticates and a transaction that succeeds leave
    in the session the balance the table holds for its account, and a
    "Balance Check" run on the state they leave shows that balance and
    changes nothing.  (The balance shown is the one of the session: it is
    the stored one as long as no other session changes the row.) *)
Theorem main_refreshes_session_balance (w : widgets) (s : state) :
  (∃ ua, (main Image_save extract_faces DeepFace_find w s).1
         = LoginAttempt (Authenticated ua))
  ∨ (∃ m, (main Image_save extract_faces DeepFace_find w s).1
          = Transaction true m) →
  let s' := (main Image_save extract_faces DeepFace_find w s).2 in
  ∃ ua row,
    logged_in (session s') = true
    ∧ session_user_account (session s') = Some ua
    ∧ users s' !! ua_account_no ua = Some row
    ∧ balance row = ua_balance ua
    ∧ ∀ w', choice w' = MenuLogin →
            transaction_type w' = "Balance Check" →
            main Image_save extract_faces DeepFace_find w' s'
            = (BalanceShown (balance row), s').
Proof.
  assert (∀ s' ua row,
            logged_in (session s') = true →
            session_user_account (session s') = Some ua →
            users s' !! ua_account_no ua = Some row →
            balance row = ua_balance ua →
            ∃ ua row,
              logged_in (session s') = true
              ∧ session_user_account (session s') = Some ua
              ∧ users s' !! ua_account_no ua = Some row
              ∧ balance row = ua_balance ua
              ∧ ∀ w', choice w' = MenuLogin →
                      transaction_type w' = "Balance Check" →
                      main Image_save extract_faces DeepFace_find w' s'
                      = (BalanceShown (balance row), s')) as Hshow.
  { intros s' ua row Hin Hua Hrow Hbal. exists ua, row.
    repeat (split; [assumption|]).
    intros w' Hchoice Htype.
    unfold main, show_transaction_view.
    rewrite Hchoice, Hin, Hua, Htype, Hbal. reflexivity. }
  unfold main, show_enrollment_view, show_transaction_view.
  destruct (choice w).
  - destruct (logged_in (session s)) eqn:Hin.
    + destruct (session_user_account (session s)) as [ua|] eqn:Hua;
        [|intros [[? [=]]|[? [=]]]].
      destruct (_ || _).
      * destruct (complete_button w); [|intros [[? [=]]|[? [=]]]].
        pose proof (update_balance_cases (ua_account_no ua) (amount w)
                      (transaction_type w) s) as Hcases.
        destruct (update_balance _ _ _ _) as [[[success m]|e] s'];
          [|intros [[? [=]]|[? [=]]]].
        simpl. intros [[? [=]]|[m' [= -> <-]]].
        destruct Hcases as [(_ & [(? & _)|[?|(? & ?)]])|Hnew];
          try discriminate.
        destruct Hnew as (row & nb & Hrow & _ & _ & Hu & _ & _ & Hs).
        rewrite Hua in Hs. destruct Hs as [_ Hs].
        apply (Hshow s' {| ua_account_no := ua_account_no ua;
                           ua_name := ua_name ua; ua_balance := nb;
                           ua_path := ua_path ua |}
                 (set_balance nb row)).
        -- rewrite Hs. exact Hin.
        -- rewrite Hs. reflexivity.
        -- rewrite Hu. apply lookup_insert_eq.
        -- reflexivity.
      * repeat case_bool_decide; try destruct (confirm_log_out_button w);
          intros [[? [=]]|[? [=]]].
    + destruct (auth_button_pressed w); [|intros [[? [=]]|[? [=]]]].
      pose proof (show_login_view_cases Image_save DeepFace_find
                    (captured_image w) s) as Hcases.
      destruct (show_login_view _ _ _ _) as [r s'].
      simpl. intros [[ua [= ->]]|[? [=]]].
      destruct Hcases as (Hu & [(_ & [(_ & ?)|(? & ? & _ & _ & ?)])|Hran]);
        try discriminate.
      destruct Hran as (image_bytes & data & _ & _ & _ & _ & Hfind).
      destruct (DeepFace_find data _) as [[|[|top rest] frames]|e];
        try (destruct Hfind as [? _]; discriminate).
      destruct (select_by_face_path _ _) as [[account_no row]|] eqn:Hsel;
        destruct Hfind as [Hr Hs]; [|discriminate].
      apply select_by_face_path_sound in Hsel as [Hrow _].
      apply (Hshow s' (account_of_row account_no row) row).
      * rewrite Hs. reflexivity.
      * rewrite Hs. reflexivity.
      * rewrite Hu. exact Hrow.
      * reflexivity.
  - destruct (submitted w); [|intros [[? [=]]|[? [=]]]].
    destruct (face_capture w); [|intros [[? [=]]|[? [=]]]].
    destruct (_ || _); [intros [[? [=]]|[? [=]]]|].
    destruct (enroll_user _ _ _ _ _ _ _) as [[success m] s'].
    intros [[? [=]]|[? [=]]].
Qed.

(** X24: With any number of browser sessions, the [TypeError]s of
    [update_balance] and of the transaction view cannot happen: in every
    server reached by browsers connecting and runs of [main], a run for any
    session never crashes on a missing account or a missing session; the
    one crash left is the [IntegrityError] of a NaN balance. *)
Theorem served_never_raises_TypeError
    (i : nat) (w : widgets) (sv : server) :
  served Image_save extract_faces DeepFace_find sv →
  match (run_session Image_save extract_faces DeepFace_find i w sv).1 with
  | Crash e => e = IntegrityError
  | _ => True
  end.
Proof.
  intros Hsv. unfold run_session.
  destruct (sessions sv !! i) as [ss|] eqn:Hi; [|exact I].
  pose proof (served_sessions_consistent sv Hsv i ss Hi) as Hsession.
  unfold session_tracks_account in Hsession.
  enough
    (match (main Image_save extract_faces DeepFace_find w
              (with_session ss (stores sv))).1 with
     | Crash e => e = IntegrityError
     | _ => True
     end) as Hmain
    by (destruct (main _ _ _ _ _) as [r s']; exact Hmain).
  unfold main, show_enrollment_view, show_transaction_view. simpl.
  destruct (choice w).
  - destruct (logged_in ss) eqn:Hin.
    + destruct (session_user_account ss) as [ua|] eqn:Hua; [|congruence].
      destruct Hsession as (_ & row & Hrow & _).
      destruct (_ || _).
      * destruct (complete_button w); [|exact I].
        pose proof (update_balance_cases (ua_account_no ua) (amount w)
                      (transaction_type w) (with_session ss (stores sv)))
          as Hcases.
        destruct (update_balance _ _ _ _) as [[[success m]|e] s'];
          [exact I|].
        simpl in *. rewrite Hua in Hcases.
        destruct Hcases
          as [(_ & [(_ & Hnone)|[Hr|(m & Hr)]])
             |(? & ? & _ & _ & _ & _ & _ & _ & Hr & _)];
          congruence.
      * repeat case_bool_decide; try destruct (confirm_log_out_button w);
          exact I.
    + destruct (auth_button_pressed w); [|exact I].
      destruct (show_login_view _ _ _ _). exact I.
  - destruct (submitted w); [|exact I].
    destruct (face_capture w); [|exact I].
    destruct (_ || _); [exact I|].
    destruct (enroll_user _ _ _ _ _ _ _) as [[success m] s']. exact I.
Qed.

End main_properties.

Lemma leb_not_nan (c x : float) : (c <=? x)%float = true → is_nan x = false.
Proof.
  rewrite FloatAxioms.leb_spec. unfold is_nan.
  rewrite FloatAxioms.eqb_spec. unfold SFleb, SFeqb, SFcompare.
  destruct (Prim2SF x) as [[]|[]| |[] m e];
    try reflexivity;
    try (destruct (Prim2SF c) as [[]|[]| |[] ? ?]; discriminate);
    intros _; rewrite Z.compare_refl;
    change (Pos.compare_cont Eq m m) with (Pos.compare m m);
    rewrite Pos.compare_refl; reflexivity.
Qed.

Section main_extras.

Variable Image_save : string → bytes → outcome bytes.
Variable extract_faces : bytes → option exn.
Variable DeepFace_find :
  bytes → gmap string bytes → outcome (list (list find_row)).

(** X20: An enrollment form submitted without a picture, or with a blank
    account number or a blank name, is refused before [enroll_user] is
    called: the run reports the failure and the state is untouched. *)
Theorem show_enrollment_view_rejects_incomplete_form
    (w : widgets) (s : state) :
  submitted w = true →
  face_capture w = None ∨ new_account_no w = "" ∨ new_name w = "" →
  show_enrollment_view Image_save extract_faces w s
  = (Enrollment false
       (Msg match face_capture w with
            | None => "Please take a picture of your face to enroll."
            | Some _ => "Please fill in Account Number and Name."
            end),
     s).
Proof.
  intros Hsub Hbad. unfold show_enrollment_view. rewrite Hsub.
  destruct (face_capture w) as [image_bytes|]; [|reflexivity].
  destruct Hbad as [?|[Hacc|Hname]]; [discriminate| |].
  - rewrite (bool_decide_eq_true_2 _ Hacc). reflexivity.
  - rewrite (bool_decide_eq_true_2 (new_name w = "") Hname), orb_true_r.
    reflexivity.
Qed.

(** X21: A run of [main] changes the row of no account but the one logged in:
    while nobody is logged in no existing row changes at all, and while
    somebody is, the rows of all other accounts stay as they are. *)
Theorem main_changes_logged_in_account_only
    (w : widgets) (s : state) (a : string) (row : user_row) :
  users s !! a = Some row →
  (logged_in (session s) = true →
   ∀ ua, session_user_account (session s) = Some ua → ua_account_no ua ≠ a) →
  users (main Image_save extract_faces DeepFace_find w s).2 !! a = Some row.
Proof.
  intros Hrow Hother.
  unfold main, show_enrollment_view, show_transaction_view.
  destruct (choice w).
  - destruct (logged_in (session s)).
    + destruct (session_user_account (session s)) as [ua|]; [|exact Hrow].
      destruct (_ || _).
      * destruct (complete_button w); [|exact Hrow].
        pose proof (update_balance_cases
                      (ua_account_no ua) (amount w) (transaction_type w) s)
          as Hcases.
        destruct (update_balance _ _ _ _) as [[[success m]|e] s'];
          simpl in *;
          (destruct Hcases as [(-> & _)|(? & ? & _ & _ & _ & -> & _)];
           [exact Hrow|];
           rewrite lookup_insert_ne; [exact Hrow|];
           exact (Hother eq_refl ua eq_refl)).
      * repeat case_bool_decide; try destruct (confirm_log_out_button w);
          exact Hrow.
    + destruct (auth_button_pressed w); [|exact Hrow].
      pose proof (show_login_view_cases Image_save DeepFace_find
                    (captured_image w) s) as Hcases.
      destruct (show_login_view _ _ _ _) as [r s']. simpl.
      destruct Hcases as [-> _]. exact Hrow.
  - destruct (submitted w); [|exact Hrow].
    destruct (face_capture w) as [image_bytes|]; [|exact Hrow].
    destruct (_ || _); [exact Hrow|].
    pose proof (enroll_user_cases Image_save extract_faces
                  (new_account_no w) (new_name w) (initial_deposit w)
                  image_bytes s) as Hcases.
    destruct (enroll_user _ _ _ _ _ _ _) as [[success m] s']. simpl in *.
    destruct Hcases as (_ & _ & [(_ & -> & _)|Hok]); [exact Hrow|].
    destruct Hok as (_ & Hnew & _ & data & _ & _ & -> & _).
    rewrite lookup_insert_ne; [exact Hrow|]. congruence.
Qed.

(** X22: Through [main] an enrollment cannot fail in the database: in every
    state reached by runs of [main], a submitted form with a new account
    number without path separator, a name, a deposit the widget allows and
    a picture that PIL saves and that shows a face creates the account: the
    row holds the name, the deposit and the path of the image, and the
    image is in the enrollment directory under the name of the account. *)
Theorem main_enrollment_succeeds
    (w : widgets) (s : state) (image_bytes data : bytes) :
  main_reachable Image_save extract_faces DeepFace_find s →
  widgets_ok w →
  has_sep (new_account_no w) = false →
  choice w = MenuEnrollNewUser →
  submitted w = true →
  face_capture w = Some image_bytes →
  new_account_no w ≠ "" →
  new_name w ≠ "" →
  users s !! new_account_no w = None →
  Image_save (os_path.join ENROLLMENT_DIR (new_account_no w +:+ ".jpg"))
    image_bytes = Returned data →
  extract_faces data = None →
  (main Image_save extract_faces DeepFace_find w s).1
  = Enrollment true (Msg "User successfully enrolled and account created!")
  ∧ users (main Image_save extract_faces DeepFace_find w s).2
    !! new_account_no w
    = Some {| name := new_name w; balance := initial_deposit w;
              enrolled_face_path :=
                os_path.join ENROLLMENT_DIR (new_account_no w +:+ ".jpg") |}
  ∧ enrolled_faces (main Image_save extract_faces DeepFace_find w s).2
    !! (new_account_no w +:+ ".jpg")
    = Some data.
Proof.
  intros ((_ & Hpaths & _) & _)%main_reachable_ui_consistent
    (_ & Hdeposit & _) _ Hchoice Hsub Hface Hacc Hname Hnew Hsave Hfound.
  pose proof (leb_not_nan _ _ Hdeposit) as Hnan.
  unfold main, show_enrollment_view. rewrite Hchoice, Hsub, Hface.
  rewrite (bool_decide_eq_false_2 _ Hacc), (bool_decide_eq_false_2 _ Hname).
  simpl. unfold enroll_user. rewrite Hnew, Hsave, Hfound. simpl.
  rewrite insert_user_paths_consistent by auto. simpl.
  rewrite (binary64.sqlite_real_ten _ Hdeposit).
  rewrite !lookup_insert_eq. auto.
Qed.

End main_extras.

(** ** Worked instances *)

Lemma sample_enrolled_paths_consistent :
  paths_consistent (users sample.enrolled).
Proof.
  change (map_Forall
            (λ a row, enrolled_face_path row
                      = os_path.join ENROLLMENT_DIR (a +:+ ".jpg"))
            (users sample.enrolled)).
  apply map_Forall_insert_2; [reflexivity|].
  apply map_Forall_insert_2; [reflexivity|].
  apply map_Forall_empty.
Qed.

Lemma best_match_path_of_copy_witness :
  best_match_path
    {| identity := os_path.join TEMP_DB_DIR ("1001" +:+ ".jpg");
       distance := 0.20 |}
  = os_path.join ENROLLMENT_DIR ("1001" +:+ ".jpg").
Proof. apply (best_match_path_of_copy "1001" 0.20). reflexivity. Defined.

Lemma enroll_user_success_creates_account_witness :
  let s' :=
    (enroll_user sample.Image_save sample.extract_faces
       "1003" "Cy" 25 sample.face_ann sample.enrolled).2 in
  let file_path := os_path.join ENROLLMENT_DIR ("1003" +:+ ".jpg") in
  users sample.enrolled !! "1003" = None
  ∧ users s' !! "1003"
    = Some {| name := "Cy"; balance := 25; enrolled_face_path := file_path |}
  ∧ (∃ data, sample.Image_save file_path sample.face_ann = Returned data
             ∧ sample.extract_faces data = None
             ∧ enrolled_faces s' !! ("1003" +:+ ".jpg") = Some data)
  ∧ (∀ k, k ≠ "1003" → users s' !! k = users sample.enrolled !! k)
  ∧ (∀ f, f ≠ "1003" +:+ ".jpg" →
          enrolled_faces s' !! f = enrolled_faces sample.enrolled !! f).
Proof.
  apply (enroll_user_success_creates_account
           sample.Image_save sample.extract_faces
           "1003" "Cy" 25 sample.face_ann sample.enrolled).
  - reflexivity.
  - vm_compute. reflexivity.
Defined.

Lemma enroll_user_failure_rolls_back_witness :
  let s' :=
    (enroll_user sample.Image_save sample.extract_faces
       "1003" "Cy" 25 sample.no_face sample.enrolled).2 in
  let file_path := os_path.join ENROLLMENT_DIR ("1003" +:+ ".jpg") in
  users s' = users sample.enrolled
  ∧ session s' = session sample.enrolled
  ∧ temp_clean_db s' = temp_clean_db sample.enrolled
  ∧ (∀ f, f ≠ "1003" +:+ ".jpg" →
          enrolled_faces s' !! f = enrolled_faces sample.enrolled !! f)
  ∧ (users sample.enrolled !! "1003" = None →
     (∃ data, sample.Image_save file_path sample.no_face = Returned data) →
     enrolled_faces s' !! ("1003" +:+ ".jpg") = None).
Proof.
  apply (enroll_user_failure_rolls_back
           sample.Image_save sample.extract_faces
           "1003" "Cy" 25 sample.no_face sample.enrolled).
  - reflexivity.
  - vm_compute. reflexivity.
Defined.

Lemma enroll_user_succeeds_witness :
  (enroll_user sample.Image_save sample.extract_faces
     "1003" "Cy" 25 sample.face_ann sample.enrolled).1
  = (true, Msg "User successfully enrolled and account created!").
Proof.
  apply (enroll_user_succeeds sample.Image_save sample.extract_faces
           "1003" "Cy" 25 sample.face_ann sample.face_ann sample.enrolled).
  - apply sample_enrolled_paths_consistent.
  - vm_compute. reflexivity.
  - reflexivity.
  - reflexivity.
  - reflexivity.
Defined.

Lemma update_balance_failure_changes_nothing_witness :
  (update_balance "1001" 150 "Withdrawal" sample.ann_logged_in).2
  = sample.ann_logged_in.
Proof.
  apply (update_balance_failure_changes_nothing
           "1001" 150 "Withdrawal" sample.ann_logged_in
           (Msg "Insufficient funds.")).
  vm_compute. reflexivity.
Defined.

Lemma update_balance_commits_before_session_witness :
  update_balance "1001" 50 "Deposit" sample.enrolled
  = (Raised TypeError,
     with_users
       (<["1001" := set_balance 150 sample.row_ann]> (users sample.enrolled))
       sample.enrolled).
Proof.
  apply (update_balance_commits_before_session
           "1001" 50 "Deposit" sample.enrolled sample.row_ann 150).
  - vm_compute. reflexivity.
  - reflexivity.
  - reflexivity.
  - right. split; reflexivity.
Defined.

Lemma withdraw_whole_balance_witness :
  (update_balance "1001" (balance sample.row_ann) "Withdrawal"
     sample.ann_logged_in).1
  = Returned (true, MsgBalance "Withdrawal" 0)
  ∧ users (update_balance "1001" (balance sample.row_ann) "Withdrawal"
             sample.ann_logged_in).2
    !! "1001"
    = Some (set_balance 0 sample.row_ann)
  ∧ ua_balance <$>
      session_user_account
        (session (update_balance "1001" (balance sample.row_ann) "Withdrawal"
                    sample.ann_logged_in).2)
    = Some 0%float.
Proof.
  apply (withdraw_whole_balance "1001" sample.ann_logged_in
           sample.row_ann sample.account_ann).
  - vm_compute. reflexivity.
  - reflexivity.
  - reflexivity.
Defined.

Lemma show_login_view_authenticates_stored_account_witness :
  let s' :=
    (show_login_view sample.Image_save sample.DeepFace_find
       (Some sample.probe) sample.enrolled).2 in
  users sample.enrolled !! ua_account_no sample.account_ann
  = Some {| name := ua_name sample.account_ann;
            balance := ua_balance sample.account_ann;
            enrolled_face_path := ua_path sample.account_ann |}
  ∧ users s' = users sample.enrolled
  ∧ logged_in (session s') = true
  ∧ session_user_account (session s') = Some sample.account_ann
  ∧ debug_match_path (session s') = Some (ua_path sample.account_ann).
Proof.
  apply (show_login_view_authenticates_stored_account
           sample.Image_save sample.DeepFace_find
           (Some sample.probe) sample.enrolled sample.account_ann).
  vm_compute. reflexivity.
Defined.

Lemma show_login_view_failure_keeps_login_witness :
  let s' :=
    (show_login_view sample.Image_save sample_ui.DeepFace_raises
       (Some sample.probe) sample.ann_logged_in).2 in
  users s' = users sample.ann_logged_in
  ∧ logged_in (session s') = logged_in (session sample.ann_logged_in)
  ∧ session_user_account (session s')
    = session_user_account (session sample.ann_logged_in).
Proof.
  apply (show_login_view_failure_keeps_login
           sample.Image_save sample_ui.DeepFace_raises
           (Some sample.probe) sample.ann_logged_in).
  intros ua. vm_compute. discriminate.
Defined.

Lemma show_login_view_without_hit_witness :
  show_login_view sample.Image_save sample_ui.DeepFace_raises
    (Some sample.probe) sample.enrolled
  = (VerificationError ValueError,
     cleanup
       (set_debug_match_path None
          (copy_enrolled
             (makedirs_temp (save_probe sample.probe sample.enrolled)))))
  ∧ session
      (show_login_view sample.Image_save sample_ui.DeepFace_raises
         (Some sample.probe) sample.enrolled).2
    = session (set_debug_match_path None sample.enrolled).
Proof.
  apply (show_login_view_without_hit
           sample.Image_save sample_ui.DeepFace_raises
           sample.probe sample.probe sample.enrolled (Raised ValueError)).
  - reflexivity.
  - reflexivity.
  - exact I.
Defined.

Lemma show_login_view_removes_reserved_template_witness :
  let s' :=
    (show_login_view sample.Image_save sample.DeepFace_find
       (Some sample.probe) sample_ui.reserved_enrolled).2 in
  is_Some (enrolled_faces sample_ui.reserved_enrolled
             !! ("temp_auth_file" +:+ ".jpg"))
  ∧ is_Some (users s' !! "temp_auth_file")
  ∧ enrolled_faces s' !! ("temp_auth_file" +:+ ".jpg") = None.
Proof.
  split; [exists sample.face_ann; vm_compute; reflexivity|].
  apply (show_login_view_removes_reserved_template
           sample.Image_save sample.DeepFace_find
           sample.probe sample.probe sample_ui.reserved_enrolled).
  - reflexivity.
  - eexists. vm_compute. reflexivity.
Defined.

Lemma show_login_view_finds_enrolled_account_witness :
  (show_login_view sample.Image_save sample.DeepFace_find
     (Some sample.probe) sample.enrolled).1
  = Authenticated (account_of_row "1001" sample.row_ann)
  ∧ session_user_account
      (session
         (show_login_view sample.Image_save sample.DeepFace_find
            (Some sample.probe) sample.enrolled).2)
    = Some (account_of_row "1001" sample.row_ann).
Proof.
  apply (show_login_view_finds_enrolled_account
           sample.Image_save sample.DeepFace_find
           sample.probe sample.probe sample.enrolled "1001" sample.row_ann
           0.20 [sample.hit_bob] []).
  - apply sample_enrolled_paths_consistent.
  - vm_compute. reflexivity.
  - reflexivity.
  - reflexivity.
  - reflexivity.
Defined.

Lemma sample_enrolled_reachable :
  reachable sample.Image_save sample.extract_faces sample.DeepFace_find
    any_request sample.enrolled.
Proof.
  rewrite <- sample_enrolled_by_enroll_user.
  repeat (apply reachable_step; [|exact I]). apply reachable_init.
Qed.

Lemma reachable_paths_consistent_witness :
  paths_consistent (users sample.enrolled)
  ∧ ∀ a b row_a row_b,
      users sample.enrolled !! a = Some row_a →
      users sample.enrolled !! b = Some row_b →
      enrolled_face_path row_a = enrolled_face_path row_b → a = b.
Proof.
  apply (reachable_paths_consistent
           sample.Image_save sample.extract_faces sample.DeepFace_find).
  apply sample_enrolled_reachable.
Defined.

Lemma sample_enrolled_short_reachable :
  reachable sample.Image_save sample.extract_faces sample.DeepFace_find
    short_enrollment sample.enrolled.
Proof.
  rewrite <- sample_enrolled_by_enroll_user.
  repeat (apply reachable_step; [|split; [reflexivity|simpl; lia]]).
  apply reachable_init.
Qed.

Lemma reachable_no_leftover_files_witness :
  temp_clean_db sample.enrolled = None ∧ no_orphan_files sample.enrolled.
Proof.
  apply (reachable_no_leftover_files
           sample.Image_save sample.extract_faces sample.DeepFace_find).
  rewrite <- sample_enrolled_by_enroll_user.
  repeat (apply reachable_step; [|reflexivity]).
  apply reachable_init.
Defined.

Lemma reachable_one_image_per_account_witness :
  is_Some (enrolled_faces sample.enrolled !! "1001.jpg")
  ↔ ∃ a, is_Some (users sample.enrolled !! a) ∧ "1001.jpg" = a +:+ ".jpg".
Proof.
  apply (reachable_one_image_per_account
           sample.Image_save sample.extract_faces sample.DeepFace_find
           sample.enrolled sample_enrolled_short_reachable "1001.jpg").
Defined.

Lemma widgets_ok_enroll_ann : widgets_ok sample_ui.enroll_ann.
Proof.
  repeat split; try reflexivity; [simpl; lia | apply list_elem_of_here].
Qed.

Lemma widgets_ok_login : widgets_ok sample_ui.login.
Proof.
  repeat split; try reflexivity; [simpl; lia | apply list_elem_of_here].
Qed.

Lemma ann_at_atm_reachable :
  main_reachable sample.Image_save sample.extract_faces sample.DeepFace_find
    sample_ui.ann_at_atm.
Proof.
  apply main_reachable_run; [|apply widgets_ok_login].
  apply main_reachable_run; [|apply widgets_ok_enroll_ann].
  apply main_reachable_init.
Qed.

Example ann_at_atm_logged_in :
  session_user_account (session sample_ui.ann_at_atm)
  = Some sample.account_ann.
Proof. vm_compute. reflexivity. Qed.

Lemma main_never_raises_TypeError_witness :
  match (main sample.Image_save sample.extract_faces sample.DeepFace_find
           sample_ui.withdraw_30 sample_ui.ann_at_atm).1 with
  | Crash e => e = IntegrityError
  | _ => True
  end.
Proof.
  apply (main_never_raises_TypeError
           sample.Image_save sample.extract_faces sample.DeepFace_find).
  apply ann_at_atm_reachable.
Defined.

Lemma widgets_ok_withdraw_30 : widgets_ok sample_ui.withdraw_30.
Proof.
  repeat split; try reflexivity; [simpl; lia | apply list_elem_of_here].
Qed.

Lemma ann_twice_served :
  served sample.Image_save sample.extract_faces sample.DeepFace_find
    sample_ui.ann_twice.
Proof.
  apply served_run; [|apply widgets_ok_login].
  apply served_run; [|apply widgets_ok_login].
  apply served_run; [|apply widgets_ok_enroll_ann].
  apply served_open, served_open, served_init.
Qed.

Lemma ann_withdrew_served :
  served sample.Image_save sample.extract_faces sample.DeepFace_find
    sample_ui.ann_withdrew.
Proof.
  apply served_run; [apply ann_twice_served|apply widgets_ok_withdraw_30].
Qed.

(** X23: The balance a session shows can be out of date: with two browsers
    logged in to the account 1001 holding 100.00, after a withdrawal of
    30.00 in the first the table holds 70.00 and a "Balance Check" shows
    70.00 in the first browser and still 100.00 in the second. *)
Theorem other_browser_shows_stale_balance :
  served sample.Image_save sample.extract_faces sample.DeepFace_find
    sample_ui.ann_withdrew
  ∧ balance <$> users (stores sample_ui.ann_withdrew) !! "1001"
    = Some 70%float
  ∧ (run_session sample.Image_save sample.extract_faces sample.DeepFace_find
       0 sample_ui.balance_check sample_ui.ann_withdrew).1
    = BalanceShown 70
  ∧ (run_session sample.Image_save sample.extract_faces sample.DeepFace_find
       1 sample_ui.balance_check sample_ui.ann_withdrew).1
    = BalanceShown 100.
Proof.
  split; [apply ann_withdrew_served|].
  split; [|split]; vm_compute; reflexivity.
Qed.

(** The second browser after the withdrawal in the first: it still holds
    Ann's account, whose row is in the table under her name and path. *)
Lemma served_session_tracks_account_witness :
  ∃ row, users (stores sample_ui.ann_withdrew) !! "1001" = Some row
         ∧ name row = "Ann"
         ∧ enrolled_face_path row = "enrolled_faces/1001.jpg".
Proof.
  apply (served_session_tracks_account
           sample.Image_save sample.extract_faces sample.DeepFace_find
           sample_ui.ann_withdrew 1
           {| logged_in := true;
              session_user_account := Some sample.account_ann;
              debug_match_path := Some (ua_path sample.account_ann) |}).
  - apply ann_withdrew_served.
  - vm_compute. reflexivity.
Defined.

Lemma main_refreshes_session_balance_witness :
  let s' :=
    (main sample.Image_save sample.extract_faces sample.DeepFace_find
       sample_ui.withdraw_30 sample_ui.ann_at_atm).2 in
  ∃ ua row,
    logged_in (session s') = true
    ∧ session_user_account (session s') = Some ua
    ∧ users s' !! ua_account_no ua = Some row
    ∧ balance row = ua_balance ua
    ∧ ∀ w', choice w' = MenuLogin →
            transaction_type w' = "Balance Check" →
            main sample.Image_save sample.extract_faces sample.DeepFace_find
              w' s'
            = (BalanceShown (balance row), s').
Proof.
  apply (main_refreshes_session_balance
           sample.Image_save sample.extract_faces sample.DeepFace_find
           sample_ui.withdraw_30 sample_ui.ann_at_atm).
  right. exists (MsgBalance "Withdrawal" 70). vm_compute. reflexivity.
Defined.

Lemma served_never_raises_TypeError_witness :
  match (run_session sample.Image_save sample.extract_faces
           sample.DeepFace_find 1 sample_ui.withdraw_30
           sample_ui.ann_withdrew).1 with
  | Crash e => e = IntegrityError
  | _ => True
  end.
Proof.
  apply (served_never_raises_TypeError
           sample.Image_save sample.extract_faces sample.DeepFace_find).
  apply ann_withdrew_served.
Defined.

Lemma show_enrollment_view_rejects_incomplete_form_witness :
  show_enrollment_view sample.Image_save sample.extract_faces
    sample_ui.enroll_nameless sample.enrolled
  = (Enrollment false (Msg "Please fill in Account Number and Name."),
     sample.enrolled).
Proof.
  apply (show_enrollment_view_rejects_incomplete_form
           sample.Image_save sample.extract_faces
           sample_ui.enroll_nameless sample.enrolled).
  - reflexivity.
  - right. right. reflexivity.
Defined.

Lemma main_changes_logged_in_account_only_witness :
  users (main sample.Image_save sample.extract_faces sample.DeepFace_find
           sample_ui.withdraw_30 sample.ann_logged_in).2 !! "1002"
  = Some sample.row_bob.
Proof.
  apply (main_changes_logged_in_account_only
           sample.Image_save sample.extract_faces sample.DeepFace_find).
  - vm_compute. reflexivity.
  - intros _ ua [= <-]. discriminate.
Defined.

Lemma main_enrollment_succeeds_witness :
  (main sample.Image_save sample.extract_faces sample.DeepFace_find
     sample_ui.enroll_ann init_state).1
  = Enrollment true (Msg "User successfully enrolled and account created!")
  ∧ users (main sample.Image_save sample.extract_faces sample.DeepFace_find
             sample_ui.enroll_ann init_state).2
    !! "1001"
    = Some {| name := "Ann"; balance := 100;
              enrolled_face_path :=
                os_path.join ENROLLMENT_DIR ("1001" +:+ ".jpg") |}
  ∧ enrolled_faces
      (main sample.Image_save sample.extract_faces sample.DeepFace_find
         sample_ui.enroll_ann init_state).2
    !! ("1001" +:+ ".jpg")
    = Some sample.face_ann.
Proof.
  apply (main_enrollment_succeeds
           sample.Image_save sample.extract_faces sample.DeepFace_find
           sample_ui.enroll_ann init_state sample.face_ann sample.face_ann).
  - apply main_reachable_init.
  - apply widgets_ok_enroll_ann.
  - reflexivity.
  - reflexivity.
  - reflexivity.
  - reflexivity.
  - discriminate.
  - discriminate.
  - reflexivity.
  - reflexivity.
  - reflexivity.
Defined.
